(** * hw1: graph builders for three digit classifiers and one training step

    A shallow embedding of [src/hw1.py].  The Python module builds
    TensorFlow 1.x graphs; it computes nothing itself.  The embedding
    therefore has three layers:

    - the Python layer: exceptions, [None], true division, [math.sqrt],
      list indexing;
    - the part of the TensorFlow API that the module calls: a graph under
      construction (with its name table), kept at the grain of the API
      calls, symbolic tensors with static shapes, and a session that
      evaluates fetches against a feed dictionary and a variable store;
    - the six functions of [hw1.py], written call for call.

    The module is read as Python 3 ([/] on two integers is true division).
    Values of tensors are taken in the real numbers; rounding of 32-bit
    floats is outside this development. *)

From Stdlib Require Import ZArith String Ascii List Bool Reals Lra Lia.
From Stdlib Require Import DecimalString DecimalNat.
From stdpp Require Import gmap strings list.

Set Default Proof Using "Type".
Open Scope string_scope.
Open Scope Z_scope.

(* ===================================================================== *)
(** ** Python layer *)
(* ===================================================================== *)

(** The exceptions that the code paths under study can raise.  [OpError]
    is the class of the errors of a step that fails while it runs
    ([tf.errors.OpError]: a placeholder without a value, a variable without
    one, operands that do not fit).  The last one is not a Python
    exception: it marks a session step whose outcome depends on the order
    in which the session runs the nodes of the step.  The embedding gives
    no account of such a step. *)
Inductive exception : Type :=
| TypeError
| ZeroDivisionError
| IndexError
| ValueError
| OpError
| Undetermined.

(** The result of a Python call: a value, or a raised exception. *)
Inductive outcome (A : Type) : Type :=
| Return (a : A)
| Raise (e : exception).
Arguments Return {A} a.
Arguments Raise {A} e.

Definition outcome_bind {A B} (o : outcome A) (k : A -> outcome B) : outcome B :=
  match o with
  | Return a => k a
  | Raise e => Raise e
  end.

(** A Python float, kept as the expression that produced it, so that the
    builders stay executable.  [pyfloat_R] gives its value. *)
Inductive pyfloat : Type :=
| PyFloat (z : Z)                 (* a literal such as 0.0 or 1.0 *)
| PyTrueDiv (a b : Z)             (* a / b on two ints, b <> 0 *)
| PySqrt (x : pyfloat).           (* math.sqrt(x), x >= 0 *)

Fixpoint pyfloat_R (x : pyfloat) : R :=
  match x with
  | PyFloat z => IZR z
  | PyTrueDiv a b => (IZR a / IZR b)%R
  | PySqrt y => sqrt (pyfloat_R y)
  end.

Definition pyfloat_negative (x : pyfloat) : bool :=
  match x with
  | PyFloat z => z <? 0
  | PyTrueDiv a b => (a * b <? 0)
  | PySqrt _ => false
  end.

(** [a / b] where [b] is an int or [None]. *)
Definition truediv (a : Z) (b : option Z) : outcome pyfloat :=
  match b with
  | None => Raise TypeError
  | Some 0 => Raise ZeroDivisionError
  | Some b' => Return (PyTrueDiv a b')
  end.

(** [a * b] where either factor may be [None]. *)
Definition mul (a b : option Z) : outcome Z :=
  match a, b with
  | Some a', Some b' => Return (a' * b')
  | _, _ => Raise TypeError
  end.

(** [l[i]] on a Python list, for a literal index [i >= 0]. *)
Definition getitem {A} (l : list A) (i : nat) : outcome A :=
  match nth_error l i with
  | Some x => Return x
  | None => Raise IndexError
  end.

Module math.
Definition sqrt (x : pyfloat) : outcome pyfloat :=
  if pyfloat_negative x then Raise ValueError else Return (PySqrt x).
End math.

(** [str.lower] on ASCII text. *)
Definition lower_ascii (c : ascii) : ascii :=
  let n := nat_of_ascii c in
  if (Nat.leb 65 n && Nat.leb n 90)%bool then ascii_of_nat (n + 32) else c.

Fixpoint lower (s : string) : string :=
  match s with
  | EmptyString => EmptyString
  | String c s' => String (lower_ascii c) (lower s')
  end.

(* ===================================================================== *)
(** ** Static shapes and symbolic tensors *)
(* ===================================================================== *)

Inductive DType : Type := float32 | float64 | int32.

Definition DType_eqb (a b : DType) : bool :=
  match a, b with
  | float32, float32 | float64, float64 | int32, int32 => true
  | _, _ => false
  end.

Definition is_floating (d : DType) : bool :=
  match d with float32 | float64 => true | int32 => false end.

(** [Dimension.value]: an int, or [None] when not statically known. *)
Definition Dimension : Type := option Z.

(** A [TensorShape]: [None] when even the rank is unknown. *)
Definition TensorShape : Type := option (list Dimension).

(** [shape[i]]: an unknown-rank shape answers every index with an
    unknown dimension; a known-rank shape raises [IndexError] out of range. *)
Definition shape_getitem (s : TensorShape) (i : nat) : outcome Dimension :=
  match s with
  | None => Return None
  | Some dims => getitem dims i
  end.

Definition dim_compatible (a b : Dimension) : bool :=
  match a, b with
  | Some x, Some y => x =? y
  | _, _ => true
  end.

Fixpoint dims_compatible (a b : list Dimension) : bool :=
  match a, b with
  | [], [] => true
  | x :: a', y :: b' => dim_compatible x y && dims_compatible a' b'
  | _, _ => false
  end.

(** [TensorShape.is_compatible_with] *)
Definition is_compatible_with (a b : TensorShape) : bool :=
  match a, b with
  | Some da, Some db => dims_compatible da db
  | _, _ => true
  end.

Definition known_shape (l : list Z) : TensorShape := Some (map Some l).

Inductive padding_mode : Type := SAME | VALID.

Inductive activation_fn : Type := relu_fn.

(** The initial values of the variables of this module: what [tf.Variable]
    is given as [initial_value], and the default kernel initializer of
    [tf.layers.conv2d]. *)
Inductive initializer : Type :=
| RandomNormal (name : string) (shape : list Z) (mean stddev : pyfloat) (dt : DType)
| Zeros (name : string) (shape : list Z) (dt : DType)
| GlorotUniform (name : string) (shape : list Z) (dt : DType).

Definition initializer_shape (i : initializer) : list Z :=
  match i with
  | RandomNormal _ s _ _ _ => s
  | Zeros _ s _ => s
  | GlorotUniform _ s _ => s
  end.

Definition initializer_dtype (i : initializer) : DType :=
  match i with
  | RandomNormal _ _ _ _ d => d
  | Zeros _ _ d => d
  | GlorotUniform _ _ d => d
  end.

(** The nodes that the module puts into a graph.  Every node carries the
    name the graph gave it. *)
Inductive tensor : Type :=
| Placeholder (name : string) (dt : DType) (shape : TensorShape)
| Var (name : string) (dt : DType) (initial_value : initializer)   (* a tf.Variable *)
| MatMul (name : string) (a b : tensor)
| Add (name : string) (a b : tensor)
| Relu (name : string) (features : tensor)
| Softmax (name : string) (logits : tensor)
| SoftmaxCrossEntropyLoss (name : string) (onehot_labels logits : tensor)
| Mean (name : string) (input_tensor : tensor)
| Conv2D (name : string) (inputs kernel bias : tensor)
         (padding : padding_mode) (activation : option activation_fn)
| Reshape (name : string) (t : tensor) (shape : list Z).

Definition tensor_name (t : tensor) : string :=
  match t with
  | Placeholder n _ _ | Var n _ _ | MatMul n _ _ | Add n _ _
  | Relu n _ | Softmax n _ | SoftmaxCrossEntropyLoss n _ _ | Mean n _
  | Conv2D n _ _ _ _ _ | Reshape n _ _ => n
  end.

Fixpoint tensor_dtype (t : tensor) : DType :=
  match t with
  | Placeholder _ d _ => d
  | Var _ d _ => d
  | MatMul _ a _ => tensor_dtype a
  | Add _ a _ => tensor_dtype a
  | Relu _ x => tensor_dtype x
  | Softmax _ x => tensor_dtype x
  | SoftmaxCrossEntropyLoss _ _ l => tensor_dtype l
  | Mean _ x => tensor_dtype x
  | Conv2D _ x _ _ _ _ => tensor_dtype x
  | Reshape _ x _ => tensor_dtype x
  end.

(** *** Static shape inference

    One function per operation, as the graph runs it when the node is
    created.  A [Raise] is the error the API call surfaces. *)

(** [MatMul] takes two matrices.  (The batched kernel is chosen only when
    both operands have rank above 2; every second operand in this module is
    a rank-2 variable.) *)
Definition matmul_shape (a b : TensorShape) : outcome TensorShape :=
  match a, b with
  | Some [a0; a1], Some [b0; b1] =>
      if dim_compatible a1 b0 then Return (Some [a0; b1]) else Raise ValueError
  | Some [a0; _], None => Return (Some [a0; None])
  | None, Some [_; b1] => Return (Some [None; b1])
  | None, None => Return (Some [None; None])
  | _, _ => Raise ValueError
  end.

Definition broadcast_dim (x y : Dimension) : outcome Dimension :=
  match x, y with
  | Some a, Some b =>
      if a =? 1 then Return (Some b)
      else if b =? 1 then Return (Some a)
      else if a =? b then Return (Some a)
      else Raise ValueError
  | Some a, None => Return (if 1 <? a then Some a else None)
  | None, Some b => Return (if 1 <? b then Some b else None)
  | None, None => Return None
  end.

(** Broadcasting aligns shapes at their last dimension: both lists are
    given innermost dimension first. *)
Fixpoint broadcast_rev (a b : list Dimension) : outcome (list Dimension) :=
  match a, b with
  | [], _ => Return b
  | _, [] => Return a
  | x :: a', y :: b' =>
      outcome_bind (broadcast_dim x y) (fun d =>
      outcome_bind (broadcast_rev a' b') (fun r => Return (d :: r)))
  end.

Definition broadcast_shape (a b : TensorShape) : outcome TensorShape :=
  match a, b with
  | Some da, Some db =>
      outcome_bind (broadcast_rev (rev da) (rev db)) (fun r => Return (Some (rev r)))
  | _, _ => Return None
  end.

Definition softmax_shape (s : TensorShape) : outcome TensorShape :=
  match s with
  | Some [] => Raise ValueError
  | _ => Return s
  end.

(** [tf.losses.softmax_cross_entropy] with its default [weights=1.0] and
    default reduction: the per-example losses are summed and divided by
    their number inside the call, so the result is a scalar. *)
Definition softmax_cross_entropy_shape (labels logits : TensorShape) : outcome TensorShape :=
  if is_compatible_with logits labels then
    match logits with
    | Some [] => Raise ValueError
    | _ => Return (Some [])
    end
  else Raise ValueError.

(** [tf.reduce_mean] with no axis reduces over every dimension. *)
Definition reduce_mean_shape (s : TensorShape) : TensorShape := Some [].

(** One spatial dimension of a stride-1 convolution: kept by padding
    ["same"]; shortened by the kernel size less one by padding ["valid"],
    which refuses an input shorter than the kernel. *)
Definition conv_output_length (p : padding_mode) (k : Z) (d : Dimension) : outcome Dimension :=
  match d with
  | None => Return None
  | Some n =>
      match p with
      | SAME => Return (Some n)
      | VALID => if n <? k then Raise ValueError else Return (Some (n - k + 1))
      end
  end.

(** A stride-1 convolution, channels last: a rank-4 input with a known
    channel count and a kernel [k1 x k2 x channels x filters]. *)
Definition conv2d_shape (s kernel : TensorShape) (p : padding_mode) : outcome TensorShape :=
  match s, kernel with
  | Some [b; h; w; Some c], Some [Some k1; Some k2; Some c'; Some filters] =>
      if c =? c' then
        outcome_bind (conv_output_length p k1 h) (fun h' =>
        outcome_bind (conv_output_length p k2 w) (fun w' =>
        Return (Some [b; h'; w'; Some filters])))
      else Raise ValueError
  | _, _ => Raise ValueError
  end.

Fixpoint all_known (l : list Dimension) : option (list Z) :=
  match l with
  | [] => Some []
  | Some n :: l' => option_map (cons n) (all_known l')
  | None :: _ => None
  end.

Definition product (l : list Z) : Z := fold_right Z.mul 1 l.

Definition count_minus_one (l : list Z) : nat :=
  length (List.filter (fun d => d =? -1) l).

(** The size that takes the place of [-1], when the input size is known. *)
Definition fill_minus_one (total : Z) (target : list Z) : outcome (list Z) :=
  let rest := product (List.filter (fun d => negb (d =? -1)) target) in
  match count_minus_one target with
  | O => if rest =? total then Return target else Raise ValueError
  | S O =>
      if (rest =? 0) || negb (total mod rest =? 0) then Raise ValueError
      else Return (map (fun d => if d =? -1 then total / rest else d) target)
  | _ => Raise ValueError
  end.

Definition reshape_shape (s : TensorShape) (target : list Z) : outcome TensorShape :=
  if existsb (fun d => d <? -1) target then Raise ValueError
  else if Nat.ltb 1 (count_minus_one target) then Raise ValueError
  else
    match s with
    | Some dims =>
        match all_known dims with
        | Some ns => outcome_bind (fill_minus_one (product ns) target)
                       (fun l => Return (known_shape l))
        | None => Return (Some (map (fun d => if d =? -1 then None else Some d) target))
        end
    | None => Return (Some (map (fun d => if d =? -1 then None else Some d) target))
    end.

Definition shape_or_unknown (o : outcome TensorShape) : TensorShape :=
  match o with
  | Return s => s
  | Raise _ => None
  end.

(** [t.get_shape()] *)
Fixpoint get_shape (t : tensor) : TensorShape :=
  match t with
  | Placeholder _ _ s => s
  | Var _ _ i => known_shape (initializer_shape i)
  | MatMul _ a b => shape_or_unknown (matmul_shape (get_shape a) (get_shape b))
  | Add _ a b => shape_or_unknown (broadcast_shape (get_shape a) (get_shape b))
  | Relu _ x => get_shape x
  | Softmax _ x => get_shape x
  | SoftmaxCrossEntropyLoss _ y l =>
      shape_or_unknown (softmax_cross_entropy_shape (get_shape y) (get_shape l))
  | Mean _ x => reduce_mean_shape (get_shape x)
  | Conv2D _ x k _ p _ => shape_or_unknown (conv2d_shape (get_shape x) (get_shape k) p)
  | Reshape _ x s => shape_or_unknown (reshape_shape (get_shape x) s)
  end.

(** [d.value] *)
Definition value (d : Dimension) : option Z := d.

(* ===================================================================== *)
(** ** The graph under construction *)
(* ===================================================================== *)

(** The default graph: the table that makes node names unique, the nodes
    that the calls so far have handed back (oldest first), and the
    variables that layers created with [get_variable].

    The graph is kept at the grain of the API: one node for each call, the
    one whose tensor the call returns.  The library puts further nodes
    under it (the constants of a random initial value, the assignment and
    the read of a variable, ...); they are not kept here, so the length of
    [operations] is not the number of nodes of the TensorFlow graph.  The
    variables are those of the root variable scope, without reuse: that is
    where the calls of the module run unless their caller opens a scope. *)
Record Graph : Type := mkGraph {
  names_in_use : gmap string nat;
  operations : list string;
  variable_store : gset string
}.

Definition empty_graph : Graph :=
  {| names_in_use := ∅; operations := []; variable_store := ∅ |}.

(** A computation on a state [S] that may raise.  An exception leaves the
    state as the calls before it made it. *)
Definition Prog (S A : Type) : Type := S -> outcome A * S.

Definition ret {S A} (a : A) : Prog S A := fun s => (Return a, s).

Definition raise {S A} (e : exception) : Prog S A := fun s => (Raise e, s).

Definition bind {S A B} (c : Prog S A) (k : A -> Prog S B) : Prog S B :=
  fun s =>
    match c s with
    | (Return a, s') => k a s'
    | (Raise e, s') => (Raise e, s')
    end.

Definition lift {S A} (o : outcome A) : Prog S A :=
  match o with
  | Return a => ret a
  | Raise e => raise e
  end.

(** A graph-building computation. *)
Definition Build (A : Type) : Type := Prog Graph A.

Notation "'do' x <- c ; k" := (bind c (fun x => k))
  (at level 10, x name, c at level 100, k at level 200, only parsing).
Notation "'do' ' pat <- c ; k" := (bind c (fun x => match x with pat => k end))
  (at level 10, pat pattern, c at level 100, k at level 200, only parsing).

Definition show_nat (n : nat) : string := NilEmpty.string_of_uint (Nat.to_uint n).

(** The search for a free name [base_i], [base_(i+1)], ...; a table with
    [n] entries rules out at most [n] candidates. *)
Fixpoint first_free (fuel : nat) (used : gmap string nat) (base : string) (i : nat) : string :=
  let candidate := base ++ "_" ++ show_nat i in
  match fuel with
  | O => candidate
  | S fuel' =>
      match used !! candidate with
      | Some _ => first_free fuel' used base (S i)
      | None => candidate
      end
  end.

(** [Graph.unique_name].  Names are compared as they are written.  (Later
    releases of the library compare them without regard to case; the two
    agree unless two names in one graph differ by case only.) *)
Definition unique_name (name : string) : Build string := fun g =>
  let used := names_in_use g in
  let i := default O (used !! name) in
  let used1 := <[name := S i]> used in
  match i with
  | O => (Return name,
          {| names_in_use := used1; operations := operations g;
             variable_store := variable_store g |})
  | S _ =>
      let name' := first_free (S (size used1)) used1 name i in
      (Return name',
       {| names_in_use := <[name' := 1%nat]> used1; operations := operations g;
          variable_store := variable_store g |})
  end.

(** A new node: it gets a unique name and joins the graph. *)
Definition create_op (name : string) : Build string := fun g =>
  match unique_name name g with
  | (Return n, g') =>
      (Return n, {| names_in_use := names_in_use g';
                    operations := operations g' ++ [n];
                    variable_store := variable_store g' |})
  | r => r
  end.

(* ===================================================================== *)
(** ** The TensorFlow calls the module makes *)
(* ===================================================================== *)

(** A Python list given as a shape must hold ints. *)
Fixpoint as_ints (l : list (option Z)) : outcome (list Z) :=
  match l with
  | [] => Return []
  | None :: _ => Raise TypeError
  | Some n :: l' => outcome_bind (as_ints l') (fun r => Return (n :: r))
  end.

(** The largest signed 64-bit integer, [2^63 - 1]. *)
Definition max_int64 : Z := 9223372036854775807.

(** A list of sizes becomes an int64 tensor, so every entry must fit one;
    and a size is not negative. *)
Definition check_sizes (l : list Z) : outcome unit :=
  if existsb (fun d => max_int64 <? d) l then Raise TypeError
  else if forallb (fun d => 0 <=? d) l then Return tt
  else Raise ValueError.

(** The shape of a variable holds at most [2^63 - 1] elements. *)
Definition check_elements (shape : list Z) : outcome unit :=
  if product shape <=? max_int64 then Return tt else Raise ValueError.

(** Each call checks its arguments first and adds its node when they pass:
    in the embedding a call that raises leaves the graph as it found it. *)
Module tf.

Definition placeholder (dtype : DType) (shape : TensorShape) (name : string) : Build tensor :=
  do n <- create_op name;
  ret (Placeholder n dtype shape).

(** [tf.random_normal(shape, stddev=...)]: mean [0.0], dtype [float32]. *)
Definition random_normal (shape : list (option Z)) (stddev : pyfloat) : Build initializer :=
  do dims <- lift (as_ints shape);
  do _ <- lift (check_sizes dims);
  do n <- create_op "random_normal";
  ret (RandomNormal n dims (PyFloat 0) stddev float32).

(** [tf.zeros(shape)]: dtype [float32]. *)
Definition zeros (shape : list Z) : Build initializer :=
  do _ <- lift (check_sizes shape);
  do n <- create_op "zeros";
  ret (Zeros n shape float32).

(** [tf.Variable(initial_value, name=..., dtype=...)] *)
Definition Variable_ (initial_value : initializer) (name : string) (dtype : DType) : Build tensor :=
  if DType_eqb (initializer_dtype initial_value) dtype then
    do _ <- lift (check_elements (initializer_shape initial_value));
    do n <- create_op name;
    ret (Var n dtype initial_value)
  else raise ValueError.

Definition matmul (a b : tensor) : Build tensor :=
  if DType_eqb (tensor_dtype a) (tensor_dtype b) then
    do _ <- lift (matmul_shape (get_shape a) (get_shape b));
    do n <- create_op "MatMul";
    ret (MatMul n a b)
  else raise TypeError.

(** [a + b] on tensors *)
Definition add (a b : tensor) : Build tensor :=
  if DType_eqb (tensor_dtype a) (tensor_dtype b) then
    do _ <- lift (broadcast_shape (get_shape a) (get_shape b));
    do n <- create_op "add";
    ret (Add n a b)
  else raise TypeError.

Definition reduce_mean (input_tensor : tensor) : Build tensor :=
  do n <- create_op "Mean";
  ret (Mean n input_tensor).

Definition reshape (t : tensor) (shape : list Z) : Build tensor :=
  do _ <- lift (reshape_shape (get_shape t) shape);
  do n <- create_op "Reshape";
  ret (Reshape n t shape).

Module nn.

Definition relu (features : tensor) : Build tensor :=
  do n <- create_op "Relu";
  ret (Relu n features).

Definition softmax (logits : tensor) : Build tensor :=
  if is_floating (tensor_dtype logits) then
    do _ <- lift (softmax_shape (get_shape logits));
    do n <- create_op "Softmax";
    ret (Softmax n logits)
  else raise TypeError.

End nn.

Module losses.

(** [tf.losses.softmax_cross_entropy(onehot_labels=..., logits=...)] with
    every other argument at its default. *)
Definition softmax_cross_entropy (onehot_labels logits : tensor) : Build tensor :=
  if is_floating (tensor_dtype logits) then
    do _ <- lift (softmax_cross_entropy_shape (get_shape onehot_labels) (get_shape logits));
    do n <- create_op "softmax_cross_entropy_loss";
    ret (SoftmaxCrossEntropyLoss n onehot_labels logits)
  else raise TypeError.

End losses.

Module layers.

Definition normalize_kernel_size (kernel_size : list Z) : outcome (Z * Z) :=
  match kernel_size with
  | [k1; k2] => Return (k1, k2)
  | _ => Raise ValueError
  end.

Definition normalize_padding (padding : string) : outcome padding_mode :=
  let p := lower padding in
  if String.eqb p "same" then Return SAME
  else if String.eqb p "valid" then Return VALID
  else Raise ValueError.

(** The channel count of a rank-4 input; the layer needs it to size its
    kernel. *)
Definition input_channels (s : TensorShape) : outcome Z :=
  match s with
  | Some [_; _; _; Some c] => Return c
  | _ => Raise ValueError
  end.

(** [get_variable] for a layer in the root variable scope, without reuse:
    a name that the store already holds is refused. *)
Definition get_variable (name : string) (dtype : DType) (init : initializer) : Build tensor :=
  fun g =>
    if decide (name ∈ variable_store g) then (Raise ValueError, g)
    else
      match check_elements (initializer_shape init) with
      | Raise e => (Raise e, g)
      | Return _ =>
          (do n <- create_op name;
           ret (Var n dtype init))
            {| names_in_use := names_in_use g;
               operations := operations g;
               variable_store := {[ name ]} ∪ variable_store g |}
      end.

(** [tf.layers.conv2d(inputs=..., filters=..., kernel_size=..., padding=...,
    activation=..., name=...)]: stride 1, channels last, with a bias.  The
    layer keeps its kernel and bias in the variable scope [name]. *)
Definition conv2d (inputs : tensor) (filters : Z) (kernel_size : list Z)
    (padding : string) (activation : option activation_fn) (name : string) : Build tensor :=
  do k <- lift (normalize_kernel_size kernel_size);
  do p <- lift (normalize_padding padding);
  do _ <- lift (check_sizes [filters; fst k; snd k]);
  if is_floating (tensor_dtype inputs) then
    do c <- lift (input_channels (get_shape inputs));
    let kernel_shape := [fst k; snd k; c; filters] in
    do _ <- lift (conv2d_shape (get_shape inputs) (known_shape kernel_shape) p);
    do kernel <- get_variable (name ++ "/kernel") (tensor_dtype inputs)
                   (GlorotUniform (name ++ "/kernel/Initializer") kernel_shape
                      (tensor_dtype inputs));
    do bias <- get_variable (name ++ "/bias") (tensor_dtype inputs)
                 (Zeros (name ++ "/bias/Initializer") [filters] (tensor_dtype inputs));
    do n <- create_op name;
    ret (Conv2D n inputs kernel bias p activation)
  else raise TypeError.

End layers.

End tf.

(* ===================================================================== *)
(** ** hw1.py: placeholders and model builders *)
(* ===================================================================== *)

(** [input_placeholder()] (hw1.py, lines 23-35) *)
Definition input_placeholder : Build tensor :=
  tf.placeholder float32 (Some [None; Some 784]) "image_input".

(** [target_placeholder()] (hw1.py, lines 37-52) *)
Definition target_placeholder : Build tensor :=
  tf.placeholder float32 (Some [None; Some 10]) "image_target_onehot".

(** The tuple [w, b, logits, preds, batch_xentropy, batch_loss]. *)
Definition onelayer_result : Type :=
  tensor * tensor * tensor * tensor * tensor * tensor.

(** [onelayer(X, Y, layersize=10)] (hw1.py, lines 54-88) *)
Definition onelayer (X Y : tensor) (layersize : Z) : Build onelayer_result :=
  do d <- lift (shape_getitem (get_shape X) 1);
  let x_size := value d in
  (* he initialisation, var(W) = 2 / n(in) *)
  do var <- lift (truediv 2 x_size);
  do std_dev <- lift (math.sqrt var);
  do w0 <- tf.random_normal [x_size; Some layersize] std_dev;
  do w <- tf.Variable_ w0 "weights" float32;
  do b0 <- tf.zeros [layersize];
  do b <- tf.Variable_ b0 "biases" float32;
  do xw <- tf.matmul X w;
  do logits <- tf.add xw b;
  do batch_xentropy <- tf.losses.softmax_cross_entropy Y logits;
  do batch_loss <- tf.reduce_mean batch_xentropy;
  do preds <- tf.nn.softmax logits;
  ret (w, b, logits, preds, batch_xentropy, batch_loss).

Definition default_layersize : Z := 10.

(** The tuple [w1, b1, w2, b2, logits, preds, batch_xentropy, batch_loss]. *)
Definition twolayer_result : Type :=
  tensor * tensor * tensor * tensor * tensor * tensor * tensor * tensor.

(** [twolayer(X, Y, hiddensize=30, outputsize=10)] (hw1.py, lines 90-133) *)
Definition twolayer (X Y : tensor) (hiddensize outputsize : Z) : Build twolayer_result :=
  do d <- lift (shape_getitem (get_shape X) 1);
  let x_size := value d in
  (* he initialisation, var(W) = 2 / n(in) *)
  do var1 <- lift (truediv 2 x_size);
  do std_dev1 <- lift (math.sqrt var1);
  do var2 <- lift (truediv 2 (Some hiddensize));
  do std_dev2 <- lift (math.sqrt var2);
  do w10 <- tf.random_normal [x_size; Some hiddensize] std_dev1;
  do w1 <- tf.Variable_ w10 "layer_1_weights" float32;
  do b10 <- tf.zeros [hiddensize];
  do b1 <- tf.Variable_ b10 "layer_1_biases" float32;
  do w20 <- tf.random_normal [Some hiddensize; Some outputsize] std_dev2;
  do w2 <- tf.Variable_ w20 "layer_2_weights" float32;
  do b20 <- tf.zeros [outputsize];
  do b2 <- tf.Variable_ b20 "layer_2_biases" float32;
  do xw1 <- tf.matmul X w1;
  do layer1_activation <- tf.add xw1 b1;
  do layer1_output <- tf.nn.relu layer1_activation;
  do hw2 <- tf.matmul layer1_output w2;
  do logits <- tf.add hw2 b2;
  do batch_xentropy <- tf.losses.softmax_cross_entropy Y logits;
  do batch_loss <- tf.reduce_mean batch_xentropy;
  do preds <- tf.nn.softmax logits;
  ret (w1, b1, w2, b2, logits, preds, batch_xentropy, batch_loss).

Definition default_hiddensize : Z := 30.
Definition default_outputsize : Z := 10.

(** The tuple [conv1, conv2, w, b, logits, preds, batch_xentropy, batch_loss]. *)
Definition convnet_result : Type :=
  tensor * tensor * tensor * tensor * tensor * tensor * tensor * tensor.

(** [convnet(X, Y, convlayer_sizes=[10, 10], filter_shape=[3, 3],
    outputsize=10, padding="same")] (hw1.py, lines 135-182).  The body never
    reads [padding]. *)
Definition convnet (X Y : tensor) (convlayer_sizes filter_shape : list Z)
    (outputsize : Z) (padding : string) : Build convnet_result :=
  do dx <- lift (shape_getitem (get_shape X) 1);
  let image_x := value dx in
  do dy <- lift (shape_getitem (get_shape X) 2);
  let image_y := value dy in
  do filters1 <- lift (getitem convlayer_sizes 0);
  do conv1 <- tf.layers.conv2d X filters1 filter_shape "same" (Some relu_fn) "conv1";
  do filters2 <- lift (getitem convlayer_sizes 1);
  do conv2 <- tf.layers.conv2d conv1 filters2 filter_shape "same" (Some relu_fn) "conv2";
  do xy <- lift (mul image_x image_y);
  do last <- lift (getitem convlayer_sizes 1);
  do conv2_vector <- tf.reshape conv2 [-1; xy * last];
  do '(w, b, logits, preds, batch_xentropy, batch_loss) <- onelayer conv2_vector Y outputsize;
  ret (conv1, conv2, w, b, logits, preds, batch_xentropy, batch_loss).

Definition default_convlayer_sizes : list Z := [10; 10].
Definition default_filter_shape : list Z := [3; 3].
Definition default_padding : string := "same".

(* ===================================================================== *)
(** ** Values of tensors *)
(* ===================================================================== *)

(** An array as fed to, or fetched from, a session: its shape and its
    elements in row-major order. *)
Record ndarray : Type := mk_ndarray {
  nd_shape : list nat;
  nd_data : list R
}.

Definition size_of (shape : list nat) : nat := fold_right Nat.mul 1%nat shape.

Definition array_shape (a : ndarray) : TensorShape :=
  Some (map (fun d => Some (Z.of_nat d)) (nd_shape a)).

Definition scalar (x : R) : ndarray := {| nd_shape := []; nd_data := [x] |}.

Definition Rsum (l : list R) : R := fold_right Rplus 0%R l.

Definition tabulate {A} (n : nat) (f : nat -> A) : list A := map f (seq 0 n).

Definition at_index (l : list R) (i : nat) : R := nth i l 0%R.

(** Row [i] of a matrix with [c] columns. *)
Definition row (data : list R) (c i : nat) : list R := firstn c (skipn (i * c) data).

Definition matmul_value (a b : ndarray) : option ndarray :=
  match nd_shape a, nd_shape b with
  | [n; k], [k'; m] =>
      if Nat.eqb k k' then
        Some {| nd_shape := [n; m];
                nd_data := tabulate (n * m) (fun p =>
                  let i := (p / m)%nat in
                  let j := (p mod m)%nat in
                  Rsum (tabulate k (fun l =>
                    at_index (nd_data a) (i * k + l) * at_index (nd_data b) (l * m + j))%R)) |}
      else None
  | _, _ => None
  end.

(** Broadcasting of run-time shapes, innermost dimension first. *)
Fixpoint broadcast_value_rev (a b : list nat) : option (list nat) :=
  match a, b with
  | [], _ => Some b
  | _, [] => Some a
  | x :: a', y :: b' =>
      match broadcast_value_rev a' b' with
      | Some r =>
          if Nat.eqb x y then Some (x :: r)
          else if Nat.eqb x 1 then Some (y :: r)
          else if Nat.eqb y 1 then Some (x :: r)
          else None
      | None => None
      end
  end.

(** The multi-index of flat position [p], innermost first. *)
Fixpoint unravel_rev (shape_rev : list nat) (p : nat) : list nat :=
  match shape_rev with
  | [] => []
  | d :: r => (p mod d)%nat :: unravel_rev r (p / d)%nat
  end.

(** The flat position in an operand of shape [shape_rev] that a result
    index reads; a dimension of size 1 is read at 0. *)
Fixpoint ravel_rev (shape_rev index_rev : list nat) (stride : nat) : nat :=
  match shape_rev, index_rev with
  | d :: r, i :: ir =>
      ((if Nat.eqb d 1 then 0 else i * stride) + ravel_rev r ir (stride * d))%nat
  | _, _ => 0%nat
  end.

Definition add_value (a b : ndarray) : option ndarray :=
  let sa := rev (nd_shape a) in
  let sb := rev (nd_shape b) in
  match broadcast_value_rev sa sb with
  | Some out_rev =>
      Some {| nd_shape := rev out_rev;
              nd_data := tabulate (size_of out_rev) (fun p =>
                let ix := unravel_rev out_rev p in
                (at_index (nd_data a) (ravel_rev sa ix 1)
                 + at_index (nd_data b) (ravel_rev sb ix 1))%R) |}
  | None => None
  end.

Definition relu_value (a : ndarray) : ndarray :=
  {| nd_shape := nd_shape a; nd_data := map (Rmax 0) (nd_data a) |}.

Definition softmax_row (x : list R) : list R :=
  let s := Rsum (map exp x) in map (fun v => (exp v / s)%R) x.

(** Softmax over the last dimension. *)
Definition softmax_value (a : ndarray) : option ndarray :=
  match rev (nd_shape a) with
  | [] => None
  | c :: outer =>
      Some {| nd_shape := nd_shape a;
              nd_data := concat (tabulate (size_of outer) (fun i =>
                           softmax_row (row (nd_data a) c i))) |}
  end.

(** The cross-entropy of one example: minus the sum over the classes of
    label times log-softmax of the logits. *)
Definition xentropy_row (y x : list R) : R :=
  let lse := ln (Rsum (map exp x)) in
  (- Rsum (map (fun yx => fst yx * (snd yx - lse)) (combine y x)))%R.

Definition per_example_losses (labels logits : ndarray) : option (list R) :=
  match rev (nd_shape logits) with
  | [] => None
  | c :: outer =>
      if decide (nd_shape labels = nd_shape logits) then
        Some (tabulate (size_of outer) (fun i =>
                xentropy_row (row (nd_data labels) c i) (row (nd_data logits) c i)))
      else None
  end.

(** The reduction inside [tf.losses.softmax_cross_entropy]: with the
    default weight 1.0 every example counts, so the sum of the losses is
    divided by their number (and is 0 for an empty batch). *)
Definition sum_by_nonzero_weights (losses : list R) : R :=
  match losses with
  | [] => 0%R
  | _ => (Rsum losses / INR (length losses))%R
  end.

Definition softmax_cross_entropy_value (labels logits : ndarray) : option ndarray :=
  match per_example_losses labels logits with
  | Some losses => Some (scalar (sum_by_nonzero_weights losses))
  | None => None
  end.

(** The mean of all elements. *)
Definition mean (l : list R) : R := (Rsum l / INR (length l))%R.

Definition reduce_mean_value (a : ndarray) : ndarray := scalar (mean (nd_data a)).

Definition reshape_value (a : ndarray) (target : list Z) : option ndarray :=
  if existsb (fun d => d <? -1) target then None
  else
    match fill_minus_one (Z.of_nat (length (nd_data a))) target with
    | Return dims => Some {| nd_shape := map Z.to_nat dims; nd_data := nd_data a |}
    | Raise _ => None
    end.

(** Element [b, i, j, c] of a rank-4 array with the given height, width and
    channel count; zero outside the image (the padding). *)
Definition pixel (data : list R) (h w ch : nat) (b : nat) (i j : Z) (c : nat) : R :=
  if (0 <=? i) && (i <? Z.of_nat h) && (0 <=? j) && (j <? Z.of_nat w) then
    at_index data (((b * h + Z.to_nat i) * w + Z.to_nat j) * ch + c)
  else 0%R.

Definition out_length (p : padding_mode) (n k : nat) : option nat :=
  match p with
  | SAME => Some n
  | VALID => if Nat.leb k n then Some (n + 1 - k)%nat else None
  end.

(** Rows (columns) of padding before the image. *)
Definition pad_before (p : padding_mode) (k : nat) : Z :=
  match p with
  | SAME => (Z.of_nat k - 1) / 2
  | VALID => 0
  end.

Definition activate (act : option activation_fn) (x : R) : R :=
  match act with
  | Some relu_fn => Rmax 0 x
  | None => x
  end.

Definition conv2d_value (x kernel bias : ndarray) (p : padding_mode)
    (act : option activation_fn) : option ndarray :=
  match nd_shape x, nd_shape kernel, nd_shape bias with
  | [n; h; w; c], [k1; k2; c'; f], [f'] =>
      if Nat.eqb c c' && Nat.eqb f f' then
        match out_length p h k1, out_length p w k2 with
        | Some oh, Some ow =>
            Some {| nd_shape := [n; oh; ow; f];
                    nd_data := tabulate (n * oh * ow * f) (fun q =>
                      let o := (q mod f)%nat in
                      let j := (q / f mod ow)%nat in
                      let i := (q / f / ow mod oh)%nat in
                      let b := (q / f / ow / oh)%nat in
                      activate act
                        (at_index (nd_data bias) o +
                         Rsum (tabulate k1 (fun di =>
                         Rsum (tabulate k2 (fun dj =>
                         Rsum (tabulate c (fun ci =>
                           pixel (nd_data x) h w c b
                             (Z.of_nat i + Z.of_nat di - pad_before p k1)
                             (Z.of_nat j + Z.of_nat dj - pad_before p k2) ci
                           * at_index (nd_data kernel) (((di * k2 + dj) * c + ci) * f + o)
                         )))))))%R) |}
        | _, _ => None
        end
      else None
  | _, _, _ => None
  end.

(** A feed dictionary: keyed by the name of the fed tensor, it holds the
    tensor and the array bound to it. *)
Abbreviation feeds := (gmap string (tensor * ndarray)).

(** The value of a tensor under a feed dictionary and a variable store;
    [None] is a run-time failure (an unfed placeholder, an uninitialised
    variable, shapes that do not fit).  A fed tensor has the fed value. *)
Fixpoint eval (fd : feeds) (vars : gmap string ndarray) (t : tensor) : option ndarray :=
  match fd !! tensor_name t with
  | Some (_, v) => Some v
  | None =>
      match t with
      | Placeholder _ _ _ => None
      | Var n _ _ => vars !! n
      | MatMul _ a b =>
          match eval fd vars a, eval fd vars b with
          | Some va, Some vb => matmul_value va vb
          | _, _ => None
          end
      | Add _ a b =>
          match eval fd vars a, eval fd vars b with
          | Some va, Some vb => add_value va vb
          | _, _ => None
          end
      | Relu _ x => option_map relu_value (eval fd vars x)
      | Softmax _ x =>
          match eval fd vars x with
          | Some v => softmax_value v
          | None => None
          end
      | SoftmaxCrossEntropyLoss _ y l =>
          match eval fd vars y, eval fd vars l with
          | Some vy, Some vl => softmax_cross_entropy_value vy vl
          | _, _ => None
          end
      | Mean _ x => option_map reduce_mean_value (eval fd vars x)
      | Conv2D _ x k b p act =>
          match eval fd vars x, eval fd vars k, eval fd vars b with
          | Some vx, Some vk, Some vb => conv2d_value vx vk vb p act
          | _, _, _ => None
          end
      | Reshape _ x s =>
          match eval fd vars x with
          | Some v => reshape_value v s
          | None => None
          end
      end
  end.

(* ===================================================================== *)
(** ** The session *)
(* ===================================================================== *)

(** What can stand in the fetch list of [Session.run]: a tensor, an
    operation without output (a no-op, or an update that assigns the value
    of a tensor to a variable), or a scalar summary of a tensor. *)
Inductive operation : Type :=
| NoOp
| Assign (variable : string) (value : tensor).

Inductive fetch : Type :=
| FetchTensor (t : tensor)
| FetchOperation (o : operation)
| FetchSummary (tag : string) (t : tensor).

(** What [Session.run] returns for one fetch: [None] for an operation, an
    array for a tensor, the tagged value for a summary. *)
Inductive fetched : Type :=
| FetchedNone
| FetchedArray (a : ndarray)
| FetchedSummary (tag : string) (a : ndarray).

(** A session: the values of the variables, and the calls of [run] it has
    served (oldest first). *)
Record Session : Type := mkSession {
  variables : gmap string ndarray;
  run_calls : list (list fetch * feeds)
}.

Definition feed_fits (fd : feeds) : bool :=
  bool_decide (map_Forall (fun _ (tv : tensor * ndarray) =>
     is_compatible_with (get_shape (fst tv)) (array_shape (snd tv)) = true) fd).

Definition fetch_value (fd : feeds) (vars : gmap string ndarray) (f : fetch) : outcome fetched :=
  match f with
  | FetchTensor t =>
      match eval fd vars t with
      | Some v => Return (FetchedArray v)
      | None => Raise OpError
      end
  | FetchOperation NoOp => Return FetchedNone
  | FetchOperation (Assign _ t) =>
      match eval fd vars t with
      | Some _ => Return FetchedNone
      | None => Raise OpError
      end
  | FetchSummary tag t =>
      match eval fd vars t with
      | Some v => Return (FetchedSummary tag v)
      | None => Raise OpError
      end
  end.

Fixpoint fetch_values (fd : feeds) (vars : gmap string ndarray) (fs : list fetch)
    : outcome (list fetched) :=
  match fs with
  | [] => Return []
  | f :: fs' =>
      outcome_bind (fetch_value fd vars f) (fun r =>
      outcome_bind (fetch_values fd vars fs') (fun rs => Return (r :: rs)))
  end.

(** The variable store after the updates among the fetches of a step free
    of races: every update has read the store as the step found it. *)
Fixpoint apply_updates (fd : feeds) (before : gmap string ndarray) (fs : list fetch)
    (vars : gmap string ndarray) : gmap string ndarray :=
  match fs with
  | [] => vars
  | FetchOperation (Assign v t) :: fs' =>
      match eval fd before t with
      | Some a => apply_updates fd before fs' (<[v := a]> vars)
      | None => apply_updates fd before fs' vars
      end
  | _ :: fs' => apply_updates fd before fs' vars
  end.

(** A fetch that updates a variable. *)
Definition is_update (f : fetch) : bool :=
  match f with
  | FetchOperation (Assign _ _) => true
  | _ => false
  end.

(** The variables that the evaluation of [t] reads.  A fed node is not
    evaluated, nor is anything that only it needs. *)
Fixpoint reads (fd : feeds) (t : tensor) : list string :=
  match fd !! tensor_name t with
  | Some _ => []
  | None =>
      match t with
      | Placeholder _ _ _ => []
      | Var n _ _ => [n]
      | MatMul _ a b => reads fd a ++ reads fd b
      | Add _ a b => reads fd a ++ reads fd b
      | Relu _ x => reads fd x
      | Softmax _ x => reads fd x
      | SoftmaxCrossEntropyLoss _ y l => reads fd y ++ reads fd l
      | Mean _ x => reads fd x
      | Conv2D _ x k b _ _ => reads fd x ++ reads fd k ++ reads fd b
      | Reshape _ x _ => reads fd x
      end
  end.

Definition fetch_reads (fd : feeds) (f : fetch) : list string :=
  match f with
  | FetchTensor t => reads fd t
  | FetchOperation NoOp => []
  | FetchOperation (Assign _ t) => reads fd t
  | FetchSummary _ t => reads fd t
  end.

Definition fetch_writes (f : fetch) : list string :=
  match f with
  | FetchOperation (Assign v _) => [v]
  | _ => []
  end.

(** [f] neither reads nor writes a variable that [f'] writes. *)
Definition clear_of (fd : feeds) (f f' : fetch) : bool :=
  forallb (fun v => negb (existsb (String.eqb v) (fetch_reads fd f ++ fetch_writes f)))
          (fetch_writes f').

(** A session runs the nodes of a step in an order that only their inputs
    constrain.  An update reads its operand before it writes; nothing
    orders the write against what another fetch of the same step reads or
    writes.  In a step that is free of races no fetch touches a variable
    that another fetch of the step writes. *)
Fixpoint race_free (fd : feeds) (fs : list fetch) : bool :=
  match fs with
  | [] => true
  | f :: rest =>
      forallb (fun f' => clear_of fd f f' && clear_of fd f' f) rest && race_free fd rest
  end.

Module Session.

(** [sess.run(fetches, feed_dict=...)]: one step.  The feeds are checked
    against the static shapes before anything runs: a feed that does not
    fit raises [ValueError] and no node has run.  In a step free of races
    every fetch is evaluated on the variables as the step found them, and
    the updates have taken effect when it returns.  A step that fails while
    it runs raises; when it holds an update, the update may or may not have
    been written by then, and the step is [Undetermined], as is a step
    with a race. *)
Definition run (fetches : list fetch) (feed_dict : feeds) : Prog Session (list fetched) :=
  fun sess =>
    let calls := (run_calls sess ++ [(fetches, feed_dict)])%list in
    if feed_fits feed_dict then
      if race_free feed_dict fetches then
        match fetch_values feed_dict (variables sess) fetches with
        | Return rs =>
            (Return rs,
             {| variables := apply_updates feed_dict (variables sess) fetches (variables sess);
                run_calls := calls |})
        | Raise e =>
            (Raise (if existsb is_update fetches then Undetermined else e),
             {| variables := variables sess; run_calls := calls |})
        end
      else (Raise Undetermined, {| variables := variables sess; run_calls := calls |})
    else (Raise ValueError, {| variables := variables sess; run_calls := calls |}).

End Session.

(* ===================================================================== *)
(** ** hw1.py: one step of training *)
(* ===================================================================== *)

(** The dictionary [{X: batch[0], Y: batch[1]}]. *)
Definition feed_dict (X : tensor) (b0 : ndarray) (Y : tensor) (b1 : ndarray) : feeds :=
  <[tensor_name Y := (Y, b1)]> (<[tensor_name X := (X, b0)]> ∅).

(** [train_step(sess, batch, X, Y, train_op, loss_op, summaries_op)]
    (hw1.py, lines 184-206); the session is the state. *)
Definition train_step (batch : list ndarray) (X Y : tensor)
    (train_op loss_op summaries_op : fetch) : Prog Session (fetched * fetched * fetched) :=
  do b0 <- lift (getitem batch 0);
  do b1 <- lift (getitem batch 1);
  do results <- Session.run [train_op; loss_op; summaries_op] (feed_dict X b0 Y b1);
  match results with
  | [train_result; loss; summary] => ret (train_result, loss, summary)
  | _ => raise ValueError
  end.

(* ===================================================================== *)
(** ** Notions used in the statements *)
(* ===================================================================== *)

(** [g'] is [g] with the nodes [names] added, in this order. *)
Definition adds_nodes (g g' : Graph) (names : list string) : Prop :=
  operations g' = (operations g ++ names)%list /\ variable_store g' = variable_store g.

(** The nodes that one convolution layer adds: its kernel, its bias, and the
    layer's output. *)
Definition layer_nodes (conv : tensor) : list string :=
  match conv with
  | Conv2D n _ kernel bias _ _ => [tensor_name kernel; tensor_name bias; n]
  | _ => []
  end.

(** The driver's use of the linear model: both placeholders, then
    [onelayer] with its default width, in a fresh graph. *)
Definition mnist_onelayer : Build (tensor * tensor * onelayer_result) :=
  do X <- input_placeholder;
  do Y <- target_placeholder;
  do model <- onelayer X Y default_layersize;
  ret (X, Y, model).

(** A batch of 28 x 28 images with one channel, as the convolutional
    builder takes it. *)
Definition image_batch : tensor :=
  Placeholder "images" float32 (Some [None; Some 28; Some 28; Some 1]).

Definition onehot_targets : tensor :=
  Placeholder "image_target_onehot" float32 (Some [None; Some 10]).

(** The nodes of [mnist_onelayer], by name. *)
Definition mnist_X : tensor := Placeholder "image_input" float32 (Some [None; Some 784]).
Definition mnist_Y : tensor := Placeholder "image_target_onehot" float32 (Some [None; Some 10]).
Definition mnist_logits : tensor :=
  Add "add"
    (MatMul "MatMul" mnist_X
       (Var "weights" float32
          (RandomNormal "random_normal" [784; 10] (PyFloat 0) (PySqrt (PyTrueDiv 2 784)) float32)))
    (Var "biases" float32 (Zeros "zeros" [10] float32)).
Definition mnist_w : tensor :=
  Var "weights" float32
    (RandomNormal "random_normal" [784; 10] (PyFloat 0) (PySqrt (PyTrueDiv 2 784)) float32).
Definition mnist_b : tensor := Var "biases" float32 (Zeros "zeros" [10] float32).
Definition mnist_batch_xentropy : tensor :=
  SoftmaxCrossEntropyLoss "softmax_cross_entropy_loss" mnist_Y mnist_logits.
Definition mnist_batch_loss : tensor := Mean "Mean" mnist_batch_xentropy.

(** A session that holds a weight matrix and a bias vector for them. *)
Definition mnist_session (weights biases : list R) : Session :=
  {| variables :=
       <["weights" := {| nd_shape := [784%nat; 10%nat]; nd_data := weights |}]>
         (<["biases" := {| nd_shape := [10%nat]; nd_data := biases |}]> ∅);
     run_calls := [] |}.

(** A minibatch of two images. *)
Definition two_images (images targets : list R) : list ndarray :=
  [ {| nd_shape := [2%nat; 784%nat]; nd_data := images |};
    {| nd_shape := [2%nat; 10%nat]; nd_data := targets |} ].

(* ===================================================================== *)
(** ** Well-formed graphs *)
(* ===================================================================== *)

(** The state of a graph that only [create_op] has added nodes to: the
    nodes have pairwise distinct names, every node's name is in the name
    table, and the table counts from 1. *)
Definition graph_wf (g : Graph) : Prop :=
  NoDup (operations g)
  /\ (forall n, (n ∈ operations g) -> is_Some (names_in_use g !! n))
  /\ (forall k v, names_in_use g !! k = Some v -> (1 <= v)%nat).

(** [g'] has the nodes of [g], in the same order, and possibly more. *)
Definition grows (g g' : Graph) : Prop :=
  exists added, operations g' = (operations g ++ added)%list.

(** A computation that takes well-formed graphs to well-formed graphs and
    removes no node, whether it returns or raises. *)
Definition keeps_wf {A} (c : Build A) : Prop :=
  forall g, graph_wf g -> graph_wf (snd (c g)) /\ grows g (snd (c g)).

(** A computation whose result, when it returns, is a node it has just
    added: the name is new to the graph. *)
Definition makes_node (c : Build tensor) : Prop :=
  forall g t g', graph_wf g -> c g = (Return t, g') ->
    (tensor_name t ∉ operations g) /\ (tensor_name t ∈ operations g').

(** [t] is a node that the step from [g] to [g'] has added. *)
Definition new_in (g g' : Graph) (t : tensor) : Prop :=
  (tensor_name t ∉ operations g) /\ (tensor_name t ∈ operations g').

(** The tensors of the returned tuples. *)
Definition onelayer_tensors (r : onelayer_result) : list tensor :=
  let '(w, b, logits, preds, batch_xentropy, batch_loss) := r in
  [w; b; logits; preds; batch_xentropy; batch_loss].

Definition twolayer_tensors (r : twolayer_result) : list tensor :=
  let '(w1, b1, w2, b2, logits, preds, batch_xentropy, batch_loss) := r in
  [w1; b1; w2; b2; logits; preds; batch_xentropy; batch_loss].

Definition convnet_tensors (r : convnet_result) : list tensor :=
  let '(conv1, conv2, w, b, logits, preds, batch_xentropy, batch_loss) := r in
  [conv1; conv2; w; b; logits; preds; batch_xentropy; batch_loss].

(** One blank image, and a one-hot target for it. *)
Definition blank_image : ndarray :=
  {| nd_shape := [1%nat; 784%nat]; nd_data := repeat 0%R 784 |}.

Definition first_class : ndarray :=
  {| nd_shape := [1%nat; 10%nat]; nd_data := 1%R :: repeat 0%R 9 |}.

(** An array of rank two whose rows have [width] entries. *)
Definition has_rows_of (width : nat) (a : ndarray) : bool :=
  match nd_shape a with
  | [_; w] => Nat.eqb w width
  | _ => false
  end.

(* ===================================================================== *)
(** ** Running a builder: one call at a time *)
(* ===================================================================== *)

Section Steps.
Context {S A B : Type}.

Lemma bind_return (c : Prog S A) (k : A -> Prog S B) s a s' :
  c s = (Return a, s') -> bind c k s = k a s'.
Proof. intros E. unfold bind. now rewrite E. Qed.

Lemma bind_raise (c : Prog S A) (k : A -> Prog S B) s e s' :
  c s = (Raise e, s') -> bind c k s = (Raise e, s').
Proof. intros E. unfold bind. now rewrite E. Qed.

Lemma bind_lift_return (a : A) (k : A -> Prog S B) s :
  bind (lift (Return a)) k s = k a s.
Proof. reflexivity. Qed.

Lemma bind_lift_raise (e : exception) (k : A -> Prog S B) s :
  bind (lift (Raise e : outcome A)) k s = (Raise e, s).
Proof. reflexivity. Qed.

End Steps.

Lemma adds_nodes_trans g1 g2 g3 l1 l2 :
  adds_nodes g1 g2 l1 -> adds_nodes g2 g3 l2 -> adds_nodes g1 g3 (l1 ++ l2).
Proof.
  intros [E1 V1] [E2 V2]. split.
  - rewrite E2, E1. now rewrite <- app_assoc.
  - congruence.
Qed.

Lemma create_op_returns name g :
  exists n g', create_op name g = (Return n, g') /\ adds_nodes g g' [n].
Proof.
  unfold create_op, unique_name, adds_nodes.
  destruct (default 0%nat (names_in_use g !! name)); eexists; eexists; simpl; eauto.
Qed.

Lemma placeholder_returns dt shape name g :
  exists n g', tf.placeholder dt shape name g = (Return (Placeholder n dt shape), g')
    /\ adds_nodes g g' [n].
Proof.
  destruct (create_op_returns name g) as (n & g' & E & H).
  exists n, g'. split; [|exact H].
  unfold tf.placeholder. now rewrite (bind_return _ _ _ _ _ E).
Qed.

Lemma check_sizes_returns (l : list Z) :
  Forall (fun d => 0 <= d <= max_int64) l -> check_sizes l = Return tt.
Proof.
  intros H. unfold check_sizes.
  replace (existsb (fun d => max_int64 <? d) l) with false.
  - replace (forallb (fun d => 0 <=? d) l) with true; [reflexivity|].
    symmetry. apply forallb_forall. intros x Hx.
    rewrite Forall_forall in H. apply Z.leb_le. apply H.
    now apply list_elem_of_In.
  - symmetry. apply not_true_is_false. intros (x & Hx & Hlt)%existsb_exists.
    rewrite Forall_forall in H. apply Z.ltb_lt in Hlt.
    apply list_elem_of_In, H in Hx. lia.
Qed.

Lemma check_elements_returns (shape : list Z) :
  product shape <= max_int64 -> check_elements shape = Return tt.
Proof.
  intros H. unfold check_elements. now destruct (Z.leb_spec (product shape) max_int64); [|lia].
Qed.

Lemma random_normal_returns (a b : Z) stddev g :
  0 <= a <= max_int64 -> 0 <= b <= max_int64 ->
  exists n g', tf.random_normal [Some a; Some b] stddev g
                 = (Return (RandomNormal n [a; b] (PyFloat 0) stddev float32), g')
    /\ adds_nodes g g' [n].
Proof.
  intros Ha Hb.
  destruct (create_op_returns "random_normal" g) as (n & g' & E & H).
  exists n, g'. split; [|exact H].
  unfold tf.random_normal. simpl as_ints. rewrite bind_lift_return.
  rewrite check_sizes_returns by (repeat (constructor; [assumption|]); constructor).
  rewrite bind_lift_return.
  now rewrite (bind_return _ _ _ _ _ E).
Qed.

Lemma zeros_returns (a : Z) g :
  0 <= a <= max_int64 ->
  exists n g', tf.zeros [a] g = (Return (Zeros n [a] float32), g') /\ adds_nodes g g' [n].
Proof.
  intros Ha.
  destruct (create_op_returns "zeros" g) as (n & g' & E & H).
  exists n, g'. split; [|exact H].
  unfold tf.zeros.
  rewrite check_sizes_returns by (repeat (constructor; [assumption|]); constructor).
  rewrite bind_lift_return.
  now rewrite (bind_return _ _ _ _ _ E).
Qed.

Lemma Variable_returns init name g :
  initializer_dtype init = float32 ->
  product (initializer_shape init) <= max_int64 ->
  exists n g', tf.Variable_ init name float32 g = (Return (Var n float32 init), g')
    /\ adds_nodes g g' [n].
Proof.
  intros Hd Hp.
  destruct (create_op_returns name g) as (n & g' & E & H).
  exists n, g'. split; [|exact H].
  unfold tf.Variable_. rewrite Hd. cbn [DType_eqb].
  rewrite (check_elements_returns _ Hp), bind_lift_return.
  now rewrite (bind_return _ _ _ _ _ E).
Qed.

Lemma matmul_returns a b s g :
  tensor_dtype a = tensor_dtype b ->
  matmul_shape (get_shape a) (get_shape b) = Return s ->
  exists n g', tf.matmul a b g = (Return (MatMul n a b), g') /\ adds_nodes g g' [n].
Proof.
  intros Hd Hs.
  destruct (create_op_returns "MatMul" g) as (n & g' & E & H).
  exists n, g'. split; [|exact H].
  unfold tf.matmul. rewrite Hd, Hs.
  replace (DType_eqb (tensor_dtype b) (tensor_dtype b)) with true
    by (now destruct (tensor_dtype b)).
  rewrite bind_lift_return.
  now rewrite (bind_return _ _ _ _ _ E).
Qed.

Lemma add_returns a b s g :
  tensor_dtype a = tensor_dtype b ->
  broadcast_shape (get_shape a) (get_shape b) = Return s ->
  exists n g', tf.add a b g = (Return (Add n a b), g') /\ adds_nodes g g' [n].
Proof.
  intros Hd Hs.
  destruct (create_op_returns "add" g) as (n & g' & E & H).
  exists n, g'. split; [|exact H].
  unfold tf.add. rewrite Hd, Hs.
  replace (DType_eqb (tensor_dtype b) (tensor_dtype b)) with true
    by (now destruct (tensor_dtype b)).
  rewrite bind_lift_return.
  now rewrite (bind_return _ _ _ _ _ E).
Qed.


Lemma reduce_mean_returns x g :
  exists n g', tf.reduce_mean x g = (Return (Mean n x), g') /\ adds_nodes g g' [n].
Proof.
  destruct (create_op_returns "Mean" g) as (n & g' & E & H).
  exists n, g'. split; [|exact H].
  unfold tf.reduce_mean. now rewrite (bind_return _ _ _ _ _ E).
Qed.

Lemma softmax_returns x s g :
  is_floating (tensor_dtype x) = true ->
  softmax_shape (get_shape x) = Return s ->
  exists n g', tf.nn.softmax x g = (Return (Softmax n x), g') /\ adds_nodes g g' [n].
Proof.
  intros Hd Hs.
  destruct (create_op_returns "Softmax" g) as (n & g' & E & H).
  exists n, g'. split; [|exact H].
  unfold tf.nn.softmax. rewrite Hd, Hs. rewrite bind_lift_return.
  now rewrite (bind_return _ _ _ _ _ E).
Qed.

Lemma softmax_cross_entropy_returns y l s g :
  is_floating (tensor_dtype l) = true ->
  softmax_cross_entropy_shape (get_shape y) (get_shape l) = Return s ->
  exists n g', tf.losses.softmax_cross_entropy y l g
                 = (Return (SoftmaxCrossEntropyLoss n y l), g')
    /\ adds_nodes g g' [n].
Proof.
  intros Hd Hs.
  destruct (create_op_returns "softmax_cross_entropy_loss" g) as (n & g' & E & H).
  exists n, g'. split; [|exact H].
  unfold tf.losses.softmax_cross_entropy. rewrite Hd, Hs. rewrite bind_lift_return.
  now rewrite (bind_return _ _ _ _ _ E).
Qed.

(** *** The static shapes of an affine layer *)

Lemma matmul_shape_affine (d0 : Dimension) (F n : Z) :
  matmul_shape (Some [d0; Some F]) (known_shape [F; n]) = Return (Some [d0; Some n]).
Proof. simpl. now rewrite Z.eqb_refl. Qed.

Lemma broadcast_shape_bias (d0 : Dimension) (n : Z) :
  broadcast_shape (Some [d0; Some n]) (known_shape [n]) = Return (Some [d0; Some n]).
Proof.
  simpl. rewrite Z.eqb_refl.
  destruct (n =? 1); reflexivity.
Qed.

Lemma softmax_cross_entropy_shape_scalar (labels : TensorShape) (d0 d1 : Dimension) :
  is_compatible_with (Some [d0; d1]) labels = true ->
  softmax_cross_entropy_shape labels (Some [d0; d1]) = Return (Some []).
Proof. intros H. unfold softmax_cross_entropy_shape. now rewrite H. Qed.

(** The classification head shared by the builders: from the logits to the
    cross-entropy, its mean and the predictions; [k] is the rest of the
    builder. *)
Lemma head_returns (Y logits : tensor) (d0 d1 : Dimension) (g : Graph) :
  get_shape logits = Some [d0; d1] ->
  tensor_dtype logits = float32 ->
  is_compatible_with (Some [d0; d1]) (get_shape Y) = true ->
  exists nx nl np g',
    adds_nodes g g' [nx; nl; np] /\
    forall B (k : tensor -> tensor -> tensor -> Build B),
      (do batch_xentropy <- tf.losses.softmax_cross_entropy Y logits;
       do batch_loss <- tf.reduce_mean batch_xentropy;
       do preds <- tf.nn.softmax logits;
       k batch_xentropy batch_loss preds) g
      = k (SoftmaxCrossEntropyLoss nx Y logits)
          (Mean nl (SoftmaxCrossEntropyLoss nx Y logits))
          (Softmax np logits) g'.
Proof.
  intros Hs Hd Hc.
  destruct (softmax_cross_entropy_returns Y logits (Some []) g) as (nx & g1 & E1 & H1).
  { now rewrite Hd. }
  { rewrite Hs. now apply softmax_cross_entropy_shape_scalar. }
  destruct (reduce_mean_returns (SoftmaxCrossEntropyLoss nx Y logits) g1)
    as (nl & g2 & E2 & H2).
  destruct (softmax_returns logits (Some [d0; d1]) g2) as (np & g3 & E3 & H3).
  { now rewrite Hd. }
  { now rewrite Hs. }
  exists nx, nl, np, g3. split.
  - exact (adds_nodes_trans _ _ _ _ _ (adds_nodes_trans _ _ _ _ _ H1 H2) H3).
  - intros B k.
    now rewrite (bind_return _ _ _ _ _ E1), (bind_return _ _ _ _ _ E2),
      (bind_return _ _ _ _ _ E3).
Qed.

(** The weights and biases of one dense layer, [fan_in x width]. *)
Lemma layer_variables_return (fan_in width : Z) (stddev : pyfloat)
    (wname bname : string) (g : Graph) :
  0 <= fan_in <= max_int64 -> 0 <= width <= max_int64 ->
  fan_in * width <= max_int64 ->
  exists nr nw nz nb g',
    adds_nodes g g' [nr; nw; nz; nb] /\
    forall B (k : tensor -> tensor -> Build B),
      (do w0 <- tf.random_normal [Some fan_in; Some width] stddev;
       do w <- tf.Variable_ w0 wname float32;
       do b0 <- tf.zeros [width];
       do b <- tf.Variable_ b0 bname float32;
       k w b) g
      = k (Var nw float32 (RandomNormal nr [fan_in; width] (PyFloat 0) stddev float32))
          (Var nb float32 (Zeros nz [width] float32)) g'.
Proof.
  intros Hf Hw Hfw.
  destruct (random_normal_returns fan_in width stddev g Hf Hw) as (nr & g1 & E1 & H1).
  destruct (Variable_returns (RandomNormal nr [fan_in; width] (PyFloat 0) stddev float32)
              wname g1 eq_refl) as (nw & g2 & E2 & H2).
  { cbn [initializer_shape product fold_right]. lia. }
  destruct (zeros_returns width g2 Hw) as (nz & g3 & E3 & H3).
  destruct (Variable_returns (Zeros nz [width] float32) bname g3 eq_refl)
    as (nb & g4 & E4 & H4).
  { cbn [initializer_shape product fold_right]. lia. }
  exists nr, nw, nz, nb, g4. split.
  - exact (adds_nodes_trans _ _ _ _ _
             (adds_nodes_trans _ _ _ _ _ (adds_nodes_trans _ _ _ _ _ H1 H2) H3) H4).
  - intros B k.
    now rewrite (bind_return _ _ _ _ _ E1), (bind_return _ _ _ _ _ E2),
      (bind_return _ _ _ _ _ E3), (bind_return _ _ _ _ _ E4).
Qed.

(** [tf.matmul(x, w) + b] for a weight matrix and a bias vector. *)
Lemma affine_returns (x w b : tensor) (d0 : Dimension) (fan_in width : Z) (g : Graph) :
  get_shape x = Some [d0; Some fan_in] ->
  get_shape w = known_shape [fan_in; width] ->
  get_shape b = known_shape [width] ->
  tensor_dtype x = float32 -> tensor_dtype w = float32 -> tensor_dtype b = float32 ->
  exists nm na g',
    adds_nodes g g' [nm; na] /\
    get_shape (Add na (MatMul nm x w) b) = Some [d0; Some width] /\
    forall B (k : tensor -> Build B),
      (do xw <- tf.matmul x w; do y <- tf.add xw b; k y) g
      = k (Add na (MatMul nm x w) b) g'.
Proof.
  intros Hx Hw Hb Dx Dw Db.
  destruct (matmul_returns x w (Some [d0; Some width]) g) as (nm & g1 & E1 & H1).
  { congruence. }
  { rewrite Hx, Hw. apply matmul_shape_affine. }
  assert (Hxw : get_shape (MatMul nm x w) = Some [d0; Some width]).
  { simpl. rewrite Hx, Hw. now rewrite matmul_shape_affine. }
  destruct (add_returns (MatMul nm x w) b (Some [d0; Some width]) g1)
    as (na & g2 & E2 & H2).
  { simpl. congruence. }
  { rewrite Hxw, Hb. apply broadcast_shape_bias. }
  exists nm, na, g2. split; [|split].
  - exact (adds_nodes_trans _ _ _ _ _ H1 H2).
  - change (get_shape (Add na (MatMul nm x w) b))
      with (shape_or_unknown (broadcast_shape (get_shape (MatMul nm x w)) (get_shape b))).
    rewrite Hxw, Hb. now rewrite broadcast_shape_bias.
  - intros B k.
    now rewrite (bind_return _ _ _ _ _ E1), (bind_return _ _ _ _ _ E2).
Qed.

Lemma le_mul_l (a b : Z) : 1 <= a -> 0 <= b -> b <= a * b.
Proof. nia. Qed.

Lemma truediv_returns (a b : Z) : b <> 0 -> truediv a (Some b) = Return (PyTrueDiv a b).
Proof. intros H. unfold truediv. now destruct b. Qed.

Lemma sqrt_returns (a b : Z) : 0 <= a * b -> math.sqrt (PyTrueDiv a b) = Return (PySqrt (PyTrueDiv a b)).
Proof.
  intros H. unfold math.sqrt, pyfloat_negative.
  now destruct (Z.ltb_spec (a * b) 0); [lia|].
Qed.

Lemma onelayer_returns (X Y : tensor) (layersize F : Z) (d0 : Dimension) (g : Graph) :
  get_shape X = Some [d0; Some F] ->
  tensor_dtype X = float32 ->
  1 <= F <= max_int64 -> 0 <= layersize ->
  F * layersize <= max_int64 ->
  is_compatible_with (Some [d0; Some layersize]) (get_shape Y) = true ->
  exists nr nw nz nb nm na nx nl np g',
    let w := Var nw float32
               (RandomNormal nr [F; layersize] (PyFloat 0) (PySqrt (PyTrueDiv 2 F)) float32) in
    let b := Var nb float32 (Zeros nz [layersize] float32) in
    let logits := Add na (MatMul nm X w) b in
    let batch_xentropy := SoftmaxCrossEntropyLoss nx Y logits in
    onelayer X Y layersize g
      = (Return (w, b, logits, Softmax np logits, batch_xentropy, Mean nl batch_xentropy), g')
    /\ adds_nodes g g' [nr; nw; nz; nb; nm; na; nx; nl; np]
    /\ get_shape w = Some [Some F; Some layersize]
    /\ get_shape b = Some [Some layersize]
    /\ get_shape logits = Some [d0; Some layersize]
    /\ pyfloat_R (PyFloat 0) = 0%R
    /\ pyfloat_R (PySqrt (PyTrueDiv 2 F)) = sqrt (2 / IZR F).
Proof.
  intros HX DX HF Hl HFl HY.
  destruct (layer_variables_return F layersize (PySqrt (PyTrueDiv 2 F)) "weights" "biases" g)
    as (nr & nw & nz & nb & g1 & H1 & K1); [lia | nia | lia |].
  set (w := Var nw float32
              (RandomNormal nr [F; layersize] (PyFloat 0) (PySqrt (PyTrueDiv 2 F)) float32)) in *.
  set (b := Var nb float32 (Zeros nz [layersize] float32)) in *.
  destruct (affine_returns X w b d0 F layersize g1 HX eq_refl eq_refl DX eq_refl eq_refl)
    as (nm & na & g2 & H2 & S2 & K2).
  destruct (head_returns Y (Add na (MatMul nm X w) b) d0 (Some layersize) g2 S2)
    as (nx & nl & np & g3 & H3 & K3).
  { simpl. exact DX. }
  { exact HY. }
  exists nr, nw, nz, nb, nm, na, nx, nl, np, g3. cbv zeta.
  split; [|split; [|split; [|split; [|split; [|split]]]]]; try reflexivity.
  - unfold onelayer. rewrite HX.
    cbn [shape_getitem getitem nth_error]. rewrite bind_lift_return.
    unfold value. rewrite (truediv_returns 2 F) by lia. rewrite bind_lift_return.
    rewrite (sqrt_returns 2 F) by lia. rewrite bind_lift_return.
    rewrite K1, K2, K3. reflexivity.
  - exact (adds_nodes_trans _ _ _ _ _ (adds_nodes_trans _ _ _ _ _ H1 H2) H3).
  - exact S2.
Qed.

(** *** Reading a successful run backwards *)

Lemma bind_inv {S A B} (c : Prog S A) (k : A -> Prog S B) s b s' :
  bind c k s = (Return b, s') ->
  exists a s1, c s = (Return a, s1) /\ k a s1 = (Return b, s').
Proof.
  unfold bind. destruct (c s) as [[a|e] s1]; intros H; [eauto | discriminate].
Qed.

Lemma lift_inv {S A} (o : outcome A) (s : S) a s' :
  lift o s = (Return a, s') -> o = Return a /\ s' = s.
Proof. destruct o; simpl; intros H; inversion H; auto. Qed.

Lemma ret_inv {S A} (x : A) (s : S) a s' :
  ret x s = (Return a, s') -> a = x /\ s' = s.
Proof. unfold ret. intros H. inversion H; auto. Qed.

Lemma create_op_inv_node {A} name (f : string -> A) g r g' :
  (do n <- create_op name; ret (f n)) g = (Return r, g') -> exists n, r = f n.
Proof.
  intros H. apply bind_inv in H as (n & g1 & _ & H).
  apply ret_inv in H as [-> _]. eauto.
Qed.

Lemma softmax_cross_entropy_inv y l g t g' :
  tf.losses.softmax_cross_entropy y l g = (Return t, g') ->
  exists n, t = SoftmaxCrossEntropyLoss n y l /\ get_shape t = Some [].
Proof.
  unfold tf.losses.softmax_cross_entropy.
  destruct (is_floating (tensor_dtype l)); [|discriminate].
  intros H. apply bind_inv in H as (s0 & g1 & H1 & H).
  apply lift_inv in H1 as [H1 ->].
  apply create_op_inv_node in H as [n ->].
  exists n. split; [reflexivity|].
  simpl. rewrite H1. simpl. revert H1. unfold softmax_cross_entropy_shape.
  destruct (is_compatible_with (get_shape l) (get_shape y)); [|discriminate].
  destruct (get_shape l) as [[|]|]; intros H1; inversion H1; reflexivity.
Qed.

Lemma reduce_mean_inv x g t g' :
  tf.reduce_mean x g = (Return t, g') -> exists n, t = Mean n x.
Proof. apply create_op_inv_node. Qed.

(** In a returned tuple of [onelayer], the fifth component is the node made
    by [tf.losses.softmax_cross_entropy] and the sixth is [tf.reduce_mean]
    of it. *)
Lemma onelayer_inv X Y layersize g w b logits preds xe loss g' :
  onelayer X Y layersize g = (Return (w, b, logits, preds, xe, loss), g') ->
  exists nx nl, xe = SoftmaxCrossEntropyLoss nx Y logits /\ loss = Mean nl xe
                /\ get_shape xe = Some [].
Proof.
  unfold onelayer. intros H.
  repeat (apply bind_inv in H as (? & ? & ? & H)).
  apply ret_inv in H as [H _]. inversion H; subst.
  match goal with
  | H1 : tf.losses.softmax_cross_entropy _ _ _ = _ |- _ =>
      apply softmax_cross_entropy_inv in H1 as (nx & -> & Hs)
  end.
  match goal with
  | H1 : tf.reduce_mean _ _ = _ |- _ => apply reduce_mean_inv in H1 as (nl & ->)
  end.
  eauto.
Qed.

Lemma twolayer_inv X Y hiddensize outputsize g w1 b1 w2 b2 logits preds xe loss g' :
  twolayer X Y hiddensize outputsize g
    = (Return (w1, b1, w2, b2, logits, preds, xe, loss), g') ->
  exists nx nl, xe = SoftmaxCrossEntropyLoss nx Y logits /\ loss = Mean nl xe
                /\ get_shape xe = Some [].
Proof.
  unfold twolayer. intros H.
  repeat (apply bind_inv in H as (? & ? & ? & H)).
  apply ret_inv in H as [H _]. inversion H; subst.
  match goal with
  | H1 : tf.losses.softmax_cross_entropy _ _ _ = _ |- _ =>
      apply softmax_cross_entropy_inv in H1 as (nx & -> & Hs)
  end.
  match goal with
  | H1 : tf.reduce_mean _ _ = _ |- _ => apply reduce_mean_inv in H1 as (nl & ->)
  end.
  eauto.
Qed.

(** *** Values *)

Lemma mean_singleton (x : R) : mean [x] = x.
Proof. unfold mean. simpl. field. Qed.

Lemma reduce_mean_value_scalar (x : R) : reduce_mean_value (scalar x) = scalar x.
Proof. unfold reduce_mean_value, scalar. simpl. now rewrite mean_singleton. Qed.

Lemma softmax_cross_entropy_value_scalar y l v :
  softmax_cross_entropy_value y l = Some v -> exists x, v = scalar x.
Proof.
  unfold softmax_cross_entropy_value.
  destruct (per_example_losses y l); intros H; inversion H; eauto.
Qed.

Lemma eval_unfed_Mean fd vars n x :
  fd !! n = None ->
  eval fd vars (Mean n x) = option_map reduce_mean_value (eval fd vars x).
Proof. intros H. simpl. now rewrite H. Qed.

Lemma eval_unfed_SoftmaxCrossEntropyLoss fd vars n y l :
  fd !! n = None ->
  eval fd vars (SoftmaxCrossEntropyLoss n y l)
  = match eval fd vars y, eval fd vars l with
    | Some vy, Some vl => softmax_cross_entropy_value vy vl
    | _, _ => None
    end.
Proof. intros H. simpl. now rewrite H. Qed.

(** The mean of the value that [tf.losses.softmax_cross_entropy] yields is
    that value. *)
Lemma eval_Mean_of_loss fd vars nl nx y l :
  fd !! nx = None -> fd !! nl = None ->
  eval fd vars (Mean nl (SoftmaxCrossEntropyLoss nx y l))
  = eval fd vars (SoftmaxCrossEntropyLoss nx y l).
Proof.
  intros Hx Hl. rewrite (eval_unfed_Mean _ _ _ _ Hl).
  rewrite (eval_unfed_SoftmaxCrossEntropyLoss _ _ _ _ _ Hx).
  destruct (eval fd vars y) as [vy|]; [|reflexivity].
  destruct (eval fd vars l) as [vl|]; [|reflexivity].
  destruct (softmax_cross_entropy_value vy vl) as [v|] eqn:E; [|reflexivity].
  apply softmax_cross_entropy_value_scalar in E as [x ->].
  simpl. now rewrite reduce_mean_value_scalar.
Qed.

(** *** The session *)

Lemma feed_dict_lookup_X X b0 Y b1 :
  tensor_name X <> tensor_name Y ->
  feed_dict X b0 Y b1 !! tensor_name X = Some (X, b0).
Proof.
  intros H. unfold feed_dict.
  rewrite lookup_insert_ne by congruence. apply lookup_insert_eq.
Qed.

Lemma feed_dict_lookup_Y X b0 Y b1 :
  feed_dict X b0 Y b1 !! tensor_name Y = Some (Y, b1).
Proof. unfold feed_dict. apply lookup_insert_eq. Qed.




Lemma fetch_values_three_length fd vars f1 f2 f3 rs :
  fetch_values fd vars [f1; f2; f3] = Return rs ->
  exists r1 r2 r3, rs = [r1; r2; r3].
Proof.
  simpl.
  destruct (fetch_value fd vars f1), (fetch_value fd vars f2), (fetch_value fd vars f3);
    simpl; intros H; inversion H; eauto.
Qed.

(** [train_step] written out as a function of the session. *)
Lemma train_step_unfold (batch : list ndarray) (X Y : tensor) (f1 f2 f3 : fetch)
    (sess : Session) :
  train_step batch X Y f1 f2 f3 sess =
  match nth_error batch 0, nth_error batch 1 with
  | Some b0, Some b1 =>
      let fd := feed_dict X b0 Y b1 in
      let calls := (run_calls sess ++ [([f1; f2; f3], fd)])%list in
      if feed_fits fd then
        if race_free fd [f1; f2; f3] then
          match fetch_values fd (variables sess) [f1; f2; f3] with
          | Return [r1; r2; r3] =>
              (Return (r1, r2, r3),
               {| variables := apply_updates fd (variables sess) [f1; f2; f3] (variables sess);
                  run_calls := calls |})
          | Return _ =>
              (Raise ValueError,
               {| variables := apply_updates fd (variables sess) [f1; f2; f3] (variables sess);
                  run_calls := calls |})
          | Raise e =>
              (Raise (if existsb is_update [f1; f2; f3] then Undetermined else e),
               {| variables := variables sess; run_calls := calls |})
          end
        else (Raise Undetermined, {| variables := variables sess; run_calls := calls |})
      else (Raise ValueError, {| variables := variables sess; run_calls := calls |})
  | _, _ => (Raise IndexError, sess)
  end.
Proof.
  unfold train_step, getitem.
  destruct (nth_error batch 0) as [b0|]; [|reflexivity].
  destruct (nth_error batch 1) as [b1|]; [|reflexivity].
  cbv zeta. unfold bind at 1. cbn [lift]. unfold ret at 1.
  unfold bind at 1. cbn [lift]. unfold ret at 1.
  unfold bind, Session.run.
  destruct (feed_fits (feed_dict X b0 Y b1)); [|reflexivity].
  destruct (race_free (feed_dict X b0 Y b1) [f1; f2; f3]); [|reflexivity].
  destruct (fetch_values _ _ _) as [rs|e] eqn:Hrs; [|reflexivity].
  destruct (fetch_values_three_length _ _ _ _ _ _ Hrs) as (a1 & a2 & a3 & ->).
  reflexivity.
Qed.

(** *** Convolution layers *)

Lemma get_variable_returns name dt init g :
  name ∉ variable_store g ->
  product (initializer_shape init) <= max_int64 ->
  exists n g', tf.layers.get_variable name dt init g = (Return (Var n dt init), g')
    /\ operations g' = (operations g ++ [n])%list
    /\ variable_store g' = {[ name ]} ∪ variable_store g.
Proof.
  intros H Hp. unfold tf.layers.get_variable.
  destruct (decide (name ∈ variable_store g)) as [Hin|_]; [contradiction|].
  rewrite (check_elements_returns _ Hp).
  set (g0 := {| names_in_use := names_in_use g; operations := operations g;
                variable_store := {[name]} ∪ variable_store g |}).
  destruct (create_op_returns name g0) as (n & g' & E & H1 & H2).
  exists n, g'. split; [|split].
  - now rewrite (bind_return _ _ _ _ _ E).
  - exact H1.
  - exact H2.
Qed.

(** A layer built with padding ["same"] keeps the height and width of its
    input. *)
Lemma conv2d_same_returns (x : tensor) (filters k1 k2 h w c : Z) (d0 : Dimension)
    (act : option activation_fn) (name : string) (g : Graph) :
  get_shape x = Some [d0; Some h; Some w; Some c] ->
  tensor_dtype x = float32 ->
  0 <= filters <= max_int64 -> 0 <= k1 <= max_int64 -> 0 <= k2 <= max_int64 ->
  k1 * k2 * c * filters <= max_int64 ->
  name ++ "/kernel" ∉ variable_store g ->
  name ++ "/bias" ∉ variable_store g ->
  name ++ "/bias" <> name ++ "/kernel" ->
  exists conv g',
    tf.layers.conv2d x filters [k1; k2] "same" act name g = (Return conv, g')
    /\ (exists n kernel bias, conv = Conv2D n x kernel bias SAME act
          /\ get_shape kernel = known_shape [k1; k2; c; filters]
          /\ get_shape bias = known_shape [filters])
    /\ get_shape conv = Some [d0; Some h; Some w; Some filters]
    /\ tensor_dtype conv = float32
    /\ variable_store g' = {[ name ++ "/bias" ]} ∪ ({[ name ++ "/kernel" ]} ∪ variable_store g)
    /\ operations g' = (operations g ++ layer_nodes conv)%list.
Proof.
  intros Hx Dx Hf Hk1 Hk2 Hcount Nk Nb Hne.
  assert (Hshape : conv2d_shape (Some [d0; Some h; Some w; Some c])
                     (known_shape [k1; k2; c; filters]) SAME
                   = Return (Some [d0; Some h; Some w; Some filters])).
  { simpl. now rewrite Z.eqb_refl. }
  destruct (get_variable_returns (name ++ "/kernel") float32
              (GlorotUniform (name ++ "/kernel/Initializer") [k1; k2; c; filters] float32)
              g Nk) as (nk & g1 & E1 & O1 & V1).
  { cbn [initializer_shape product fold_right]. lia. }
  destruct (get_variable_returns (name ++ "/bias") float32
              (Zeros (name ++ "/bias/Initializer") [filters] float32) g1)
    as (nb & g2 & E2 & O2 & V2).
  { rewrite V1. intros [Hin|Hin]%elem_of_union; [|contradiction].
    apply elem_of_singleton in Hin. contradiction. }
  { cbn [initializer_shape product fold_right]. lia. }
  destruct (create_op_returns name g2) as (n & g3 & E3 & O3 & V3).
  eexists; exists g3. split; [|split; [|split; [|split; [|split]]]].
  - unfold tf.layers.conv2d.
    cbn [tf.layers.normalize_kernel_size]. rewrite bind_lift_return.
    change (tf.layers.normalize_padding "same") with (Return SAME).
    rewrite bind_lift_return. cbn [fst snd].
    rewrite check_sizes_returns by (repeat (constructor; [assumption|]); constructor).
    rewrite bind_lift_return. rewrite Dx. cbn [is_floating].
    rewrite Hx. cbn [tf.layers.input_channels]. rewrite bind_lift_return.
    rewrite Hshape. rewrite bind_lift_return.
    rewrite (bind_return _ _ _ _ _ E1), (bind_return _ _ _ _ _ E2),
      (bind_return _ _ _ _ _ E3).
    reflexivity.
  - eauto 10.
  - cbn [get_shape]. rewrite Hx. cbn [initializer_shape]. now rewrite Hshape.
  - exact Dx.
  - rewrite V3, V2, V1. reflexivity.
  - cbn [layer_nodes tensor_name]. rewrite O3, O2, O1. now rewrite <- !app_assoc.
Qed.

Lemma reshape_returns t shape s g :
  reshape_shape (get_shape t) shape = Return s ->
  exists n g', tf.reshape t shape g = (Return (Reshape n t shape), g') /\ adds_nodes g g' [n].
Proof.
  intros Hs.
  destruct (create_op_returns "Reshape" g) as (n & g' & E & H).
  exists n, g'. split; [|exact H].
  unfold tf.reshape. rewrite Hs, bind_lift_return.
  now rewrite (bind_return _ _ _ _ _ E).
Qed.

(** Flattening [batch x h x w x c] to rows of [h * w * c] features. *)
Lemma reshape_shape_flatten (d0 : Dimension) (h w c : Z) :
  1 <= h -> 1 <= w -> 1 <= c ->
  reshape_shape (Some [d0; Some h; Some w; Some c]) [-1; h * w * c]
  = Return (Some [d0; Some (h * w * c)]).
Proof.
  intros Hh Hw Hc.
  assert (Hpos : 1 <= h * w * c) by nia.
  unfold reshape_shape.
  assert (E1 : (h * w * c <? -1) = false) by (apply Z.ltb_ge; lia).
  assert (E2 : (h * w * c =? -1) = false) by (apply Z.eqb_neq; lia).
  cbn [existsb]. rewrite E1. cbn [orb].
  unfold count_minus_one. cbn [List.filter]. 
  change (-1 =? -1) with true. cbn [List.filter length]. rewrite E2. cbn [length Nat.ltb Nat.leb].
  destruct d0 as [n|]; cbn [all_known option_map].
  - unfold fill_minus_one, count_minus_one. cbn [List.filter].
    change (-1 =? -1) with true. rewrite E2. cbn [negb List.filter length product fold_right].
    assert (E3 : (h * w * c * 1 =? 0) = false) by (apply Z.eqb_neq; lia).
    rewrite E3. cbn [orb].
    replace (n * (h * (w * (c * 1)))) with (n * (h * w * c * 1)) by ring.
    rewrite Z.mod_mul by lia. cbn [Z.eqb negb]. 
    cbn [outcome_bind map]. change (-1 =? -1) with true. rewrite E2.
    rewrite Z.div_mul by lia. reflexivity.
  - cbn [map]. change (-1 =? -1) with true. now rewrite E2.
Qed.

Lemma not_in_extended_store (name a b : string) (store : gset string) :
  name <> a -> name <> b -> name ∉ store -> name ∉ ({[ a ]} ∪ ({[ b ]} ∪ store) : gset string).
Proof.
  intros Ha Hb Hs [H|[H|H]%elem_of_union]%elem_of_union.
  - apply elem_of_singleton in H. contradiction.
  - apply elem_of_singleton in H. contradiction.
  - contradiction.
Qed.

(** *** Values of the classification head *)

Lemma matmul_value_shape (a b : ndarray) (n k m : nat) :
  nd_shape a = [n; k] -> nd_shape b = [k; m] ->
  exists v, matmul_value a b = Some v /\ nd_shape v = [n; m].
Proof.
  intros Ha Hb. unfold matmul_value. rewrite Ha, Hb, Nat.eqb_refl.
  eexists. split; reflexivity.
Qed.

Lemma add_value_bias_shape (a b : ndarray) (n m : nat) :
  nd_shape a = [n; m] -> nd_shape b = [m] ->
  exists v, add_value a b = Some v /\ nd_shape v = [n; m].
Proof.
  intros Ha Hb. unfold add_value. rewrite Ha, Hb.
  cbn [rev app broadcast_value_rev]. rewrite Nat.eqb_refl.
  eexists. split; reflexivity.
Qed.

Lemma per_example_losses_rows (labels logits : ndarray) (n m : nat) :
  nd_shape labels = [n; m] -> nd_shape logits = [n; m] ->
  per_example_losses labels logits
  = Some (tabulate n (fun i =>
            xentropy_row (row (nd_data labels) m i) (row (nd_data logits) m i))).
Proof.
  intros Hy Hl. unfold per_example_losses. rewrite Hy, Hl.
  cbn [rev app]. destruct (decide ([n; m] = [n; m])) as [_|Hne]; [|contradiction].
  unfold size_of. cbn [fold_right]. now rewrite Nat.mul_1_r.
Qed.

Lemma length_tabulate {A} (n : nat) (f : nat -> A) : length (tabulate n f) = n.
Proof. unfold tabulate. now rewrite length_map, length_seq. Qed.

(** On a batch that is not empty, the reduction inside the loss call is the
    arithmetic mean. *)
Lemma sum_by_nonzero_weights_mean (losses : list R) :
  losses <> [] -> sum_by_nonzero_weights losses = mean losses.
Proof. destruct losses; [contradiction | reflexivity]. Qed.

(** The values in a graph made by [onelayer]: on a batch of [n] examples
    the logits are an [n x m] matrix, and the node made by
    [tf.losses.softmax_cross_entropy] has one number as its value, computed
    from the [n] per-example losses. *)
Lemma eval_dense_loss (fd : feeds) (vars : gmap string ndarray) (X Y : tensor)
    (nw nb nm na nx : string) (iw ib : initializer)
    (vx vy vw vb : ndarray) (n F m : nat) :
  eval fd vars X = Some vx -> eval fd vars Y = Some vy ->
  vars !! nw = Some vw -> vars !! nb = Some vb ->
  fd !! nw = None -> fd !! nb = None -> fd !! nm = None -> fd !! na = None ->
  fd !! nx = None ->
  nd_shape vx = [n; F] -> nd_shape vw = [F; m] -> nd_shape vb = [m] ->
  nd_shape vy = [n; m] ->
  let logits := Add na (MatMul nm X (Var nw float32 iw)) (Var nb float32 ib) in
  exists vl,
    eval fd vars logits = Some vl /\ nd_shape vl = [n; m] /\
    eval fd vars (SoftmaxCrossEntropyLoss nx Y logits)
    = Some (scalar (sum_by_nonzero_weights
                      (tabulate n (fun i =>
                         xentropy_row (row (nd_data vy) m i) (row (nd_data vl) m i))))).
Proof.
  intros EX EY Vw Vb Fw Fb Fm Fa Fx Sx Sw Sb Sy logits.
  destruct (matmul_value_shape vx vw n F m Sx Sw) as (vxw & Exw & Sxw).
  destruct (add_value_bias_shape vxw vb n m Sxw Sb) as (vl & El & Sl).
  assert (EL : eval fd vars logits = Some vl).
  { unfold logits. cbn [eval tensor_name]. rewrite Fa, Fm, EX, Fw, Vw, Exw, Fb, Vb.
    exact El. }
  exists vl. split; [exact EL|]. split; [exact Sl|].
  rewrite (eval_unfed_SoftmaxCrossEntropyLoss _ _ _ _ _ Fx), EY, EL.
  unfold softmax_cross_entropy_value.
  now rewrite (per_example_losses_rows vy vl n m Sy Sl).
Qed.

(** *** Feeding *)

Lemma feed_fits_singleton (t : tensor) (a : ndarray) :
  is_compatible_with (get_shape t) (array_shape a) = true ->
  feed_fits {[ tensor_name t := (t, a) ]} = true.
Proof.
  intros H. unfold feed_fits. apply bool_decide_eq_true.
  now apply map_Forall_singleton.
Qed.

Lemma feed_fits_feed_dict (X Y : tensor) (b0 b1 : ndarray) :
  is_compatible_with (get_shape X) (array_shape b0) = true ->
  is_compatible_with (get_shape Y) (array_shape b1) = true ->
  feed_fits (feed_dict X b0 Y b1) = true.
Proof.
  intros HX HY. unfold feed_fits, feed_dict. apply bool_decide_eq_true.
  apply map_Forall_insert_2; [exact HY|].
  apply map_Forall_insert_2; [exact HX|].
  apply map_Forall_empty.
Qed.

Lemma rows_fit (n : positive) (width : nat) (data : list R) (d : Dimension) :
  d = Some (Z.of_nat width) ->
  is_compatible_with (Some [None; d])
    (array_shape {| nd_shape := [Pos.to_nat n; width]; nd_data := data |}) = true.
Proof. intros ->. simpl. now rewrite Z.eqb_refl. Qed.

Lemma run_fetch_fed (t : tensor) (a : ndarray) (sess : Session) :
  is_compatible_with (get_shape t) (array_shape a) = true ->
  fst (Session.run [FetchTensor t] {[ tensor_name t := (t, a) ]} sess)
  = Return [FetchedArray a].
Proof.
  intros H. unfold Session.run. rewrite (feed_fits_singleton t a H).
  cbn [fetch_values fetch_value].
  assert (E : eval {[ tensor_name t := (t, a) ]} (variables sess) t = Some a).
  { destruct t; cbn [eval tensor_name]; now rewrite lookup_singleton_eq. }
  rewrite E. reflexivity.
Qed.

(** A batch whose rows are one pixel short is refused. *)
Example short_rows_are_refused (images : list R) (sess : Session) :
  let X := Placeholder "image_input" float32 (Some [None; Some 784]) in
  fst (Session.run [FetchTensor X]
         {[ "image_input" := (X, {| nd_shape := [2%nat; 783%nat]; nd_data := images |}) ]} sess)
  = Raise ValueError.
Proof.
  cbv zeta. unfold Session.run.
  replace (feed_fits _) with false; [reflexivity|].
  symmetry. apply bool_decide_eq_false. intros H.
  apply map_Forall_singleton in H. discriminate H.
Qed.

(** *** The training step on a model *)

(** On the linear model with two images, a step with a no-op update
    returns the loss: the mean of the two per-example losses. *)
Lemma train_step_returns_loss (images targets weights biases : list R) :
  exists vl,
    eval (feed_dict mnist_X {| nd_shape := [2%nat; 784%nat]; nd_data := images |}
                    mnist_Y {| nd_shape := [2%nat; 10%nat]; nd_data := targets |})
         (variables (mnist_session weights biases)) mnist_logits = Some vl
    /\ fst (train_step (two_images images targets) mnist_X mnist_Y
              (FetchOperation NoOp) (FetchTensor mnist_batch_loss)
              (FetchSummary "loss" mnist_batch_loss) (mnist_session weights biases))
       = let l := mean [xentropy_row (row targets 10 0) (row (nd_data vl) 10 0);
                        xentropy_row (row targets 10 1) (row (nd_data vl) 10 1)] in
         Return (FetchedNone, FetchedArray (scalar l), FetchedSummary "loss" (scalar l)).
Proof.
  set (fd := feed_dict mnist_X {| nd_shape := [2%nat; 784%nat]; nd_data := images |}
                       mnist_Y {| nd_shape := [2%nat; 10%nat]; nd_data := targets |}).
  assert (Unfed : forall name, name <> "image_input" -> name <> "image_target_onehot" ->
                               fd !! name = None).
  { intros name H1 H2. unfold fd, feed_dict. cbn [tensor_name mnist_X mnist_Y].
    rewrite !lookup_insert_ne by congruence. apply lookup_empty. }
  destruct (eval_dense_loss fd (variables (mnist_session weights biases)) mnist_X mnist_Y
              "weights" "biases" "MatMul" "add" "softmax_cross_entropy_loss"
              (RandomNormal "random_normal" [784; 10] (PyFloat 0)
                 (PySqrt (PyTrueDiv 2 784)) float32)
              (Zeros "zeros" [10] float32)
              {| nd_shape := [2%nat; 784%nat]; nd_data := images |}
              {| nd_shape := [2%nat; 10%nat]; nd_data := targets |}
              {| nd_shape := [784%nat; 10%nat]; nd_data := weights |}
              {| nd_shape := [10%nat]; nd_data := biases |}
              2 784 10)
    as (vl & EL & SL & EXE); try reflexivity; try (apply Unfed; discriminate).
  exists vl. split; [exact EL|].
  assert (ELoss : eval fd (variables (mnist_session weights biases)) mnist_batch_loss
                  = Some (scalar (mean [xentropy_row (row targets 10 0) (row (nd_data vl) 10 0);
                                        xentropy_row (row targets 10 1) (row (nd_data vl) 10 1)]))).
  { unfold mnist_batch_loss, mnist_batch_xentropy.
    rewrite eval_Mean_of_loss by (apply Unfed; discriminate). exact EXE. }
  rewrite train_step_unfold. cbn [two_images nth_error]. cbv zeta. fold fd.
  replace (feed_fits fd) with true
    by (symmetry; apply feed_fits_feed_dict; reflexivity).
  cbn [fetch_values fetch_value]. rewrite ELoss. reflexivity.
Qed.

(** An update of the biases in the same step as a loss that reads them:
    nothing orders the write against the read, and the step is left
    undetermined.  A copy of the weights into a variable that no other
    fetch touches is free of races. *)
Example race_on_the_biases (images targets weights biases : list R) :
  let fd := feed_dict mnist_X {| nd_shape := [2%nat; 784%nat]; nd_data := images |}
                      mnist_Y {| nd_shape := [2%nat; 10%nat]; nd_data := targets |} in
  race_free fd [FetchOperation (Assign "biases" mnist_b); FetchTensor mnist_batch_loss;
                FetchSummary "loss" mnist_batch_loss] = false
  /\ race_free fd [FetchOperation (Assign "weights_copy" mnist_w);
                   FetchTensor mnist_batch_loss;
                   FetchSummary "loss" mnist_batch_loss] = true
  /\ fst (train_step (two_images images targets) mnist_X mnist_Y
            (FetchOperation (Assign "biases" mnist_b)) (FetchTensor mnist_batch_loss)
            (FetchSummary "loss" mnist_batch_loss) (mnist_session weights biases))
     = Raise Undetermined.
Proof.
  cbv zeta.
  set (fd := feed_dict mnist_X {| nd_shape := [2%nat; 784%nat]; nd_data := images |}
                       mnist_Y {| nd_shape := [2%nat; 10%nat]; nd_data := targets |}).
  assert (Unfed : forall name, name <> "image_input" -> name <> "image_target_onehot" ->
                               fd !! name = None).
  { intros name H1 H2. unfold fd, feed_dict. cbn [tensor_name mnist_X mnist_Y].
    rewrite !lookup_insert_ne by congruence. apply lookup_empty. }
  assert (FedX : fd !! "image_input" = Some (mnist_X, {| nd_shape := [2%nat; 784%nat];
                                                         nd_data := images |})).
  { apply (feed_dict_lookup_X mnist_X _ mnist_Y _). discriminate. }
  assert (FedY : fd !! "image_target_onehot"
                 = Some (mnist_Y, {| nd_shape := [2%nat; 10%nat]; nd_data := targets |})).
  { apply (feed_dict_lookup_Y mnist_X _ mnist_Y _). }
  assert (Rl : reads fd mnist_batch_loss = ["weights"; "biases"]).
  { unfold mnist_batch_loss, mnist_batch_xentropy, mnist_logits, mnist_X, mnist_Y.
    cbn [reads tensor_name].
    rewrite !Unfed by discriminate. rewrite FedX, FedY. reflexivity. }
  assert (Race : race_free fd [FetchOperation (Assign "biases" mnist_b);
                               FetchTensor mnist_batch_loss;
                               FetchSummary "loss" mnist_batch_loss] = false).
  { cbn [race_free forallb clear_of fetch_reads fetch_writes]. rewrite Rl. reflexivity. }
  split; [exact Race|]. split.
  - cbn [race_free forallb clear_of fetch_reads fetch_writes]. rewrite Rl. reflexivity.
  - rewrite train_step_unfold. cbn [two_images nth_error]. cbv zeta. fold fd.
    replace (feed_fits fd) with true
      by (symmetry; apply feed_fits_feed_dict; reflexivity).
    now rewrite Race.
Qed.

(** *** The kernels on small arrays *)

Example matmul_value_2x2 (a b c d x y z t : R) :
  matmul_value {| nd_shape := [2%nat; 2%nat]; nd_data := [a; b; c; d] |}
               {| nd_shape := [2%nat; 2%nat]; nd_data := [x; y; z; t] |}
  = Some {| nd_shape := [2%nat; 2%nat];
            nd_data := [a * x + (b * z + 0); a * y + (b * t + 0);
                        c * x + (d * z + 0); c * y + (d * t + 0)]%R |}.
Proof. reflexivity. Qed.

Example add_value_broadcasts_bias (a b c d x y : R) :
  add_value {| nd_shape := [2%nat; 2%nat]; nd_data := [a; b; c; d] |}
            {| nd_shape := [2%nat]; nd_data := [x; y] |}
  = Some {| nd_shape := [2%nat; 2%nat]; nd_data := [a + x; b + y; c + x; d + y]%R |}.
Proof. reflexivity. Qed.

Example softmax_value_rows (a b c d : R) :
  softmax_value {| nd_shape := [2%nat; 2%nat]; nd_data := [a; b; c; d] |}
  = Some {| nd_shape := [2%nat; 2%nat];
            nd_data := [exp a / (exp a + (exp b + 0)); exp b / (exp a + (exp b + 0));
                        exp c / (exp c + (exp d + 0)); exp d / (exp c + (exp d + 0))]%R |}.
Proof. reflexivity. Qed.

Example per_example_losses_two (y1 y2 y3 y4 a b c d : R) :
  per_example_losses {| nd_shape := [2%nat; 2%nat]; nd_data := [y1; y2; y3; y4] |}
                     {| nd_shape := [2%nat; 2%nat]; nd_data := [a; b; c; d] |}
  = Some [xentropy_row [y1; y2] [a; b]; xentropy_row [y3; y4] [c; d]].
Proof. reflexivity. Qed.

(** A 2 x 2 image under a 3 x 3 kernel of ones: with padding ["same"]
    every output pixel sees the whole image; with ["valid"] the image is
    too small. *)
Example conv2d_value_same (a b c d : R) :
  exists v,
    conv2d_value {| nd_shape := [1%nat; 2%nat; 2%nat; 1%nat]; nd_data := [a; b; c; d] |}
                 {| nd_shape := [3%nat; 3%nat; 1%nat; 1%nat];
                    nd_data := [1; 1; 1; 1; 1; 1; 1; 1; 1]%R |}
                 {| nd_shape := [1%nat]; nd_data := [0%R] |} SAME None = Some v
    /\ nd_shape v = [1%nat; 2%nat; 2%nat; 1%nat]
    /\ nd_data v = [a + b + c + d; a + b + c + d; a + b + c + d; a + b + c + d]%R.
Proof.
  eexists. split; [reflexivity|]. split; [reflexivity|].
  lazy -[Rplus Rmult IZR].
  repeat (f_equal; try lra).
Qed.

Example conv2d_value_valid_too_small (a b c d : R) :
  conv2d_value {| nd_shape := [1%nat; 2%nat; 2%nat; 1%nat]; nd_data := [a; b; c; d] |}
               {| nd_shape := [3%nat; 3%nat; 1%nat; 1%nat];
                  nd_data := [1; 1; 1; 1; 1; 1; 1; 1; 1]%R |}
               {| nd_shape := [1%nat]; nd_data := [0%R] |} VALID None = None.
Proof. reflexivity. Qed.

(** *** Inputs outside the builders' domain *)

(** An input without features: [2 / 0] raises before any node is made. *)
Lemma onelayer_no_features (X Y : tensor) (layersize : Z) (d0 : Dimension) (g : Graph) :
  get_shape X = Some [d0; Some 0] ->
  onelayer X Y layersize g = (Raise ZeroDivisionError, g).
Proof. intros H. unfold onelayer. rewrite H. reflexivity. Qed.

(** A rank-1 input has no second dimension to read. *)
Lemma onelayer_rank_one (X Y : tensor) (layersize : Z) (d0 : Dimension) (g : Graph) :
  get_shape X = Some [d0] ->
  onelayer X Y layersize g = (Raise IndexError, g).
Proof. intros H. unfold onelayer. rewrite H. reflexivity. Qed.

(** The flat input placeholder is not an image batch: [convnet] raises on
    reading the third dimension. *)
Example convnet_on_flat_input (g : Graph) :
  convnet mnist_X mnist_Y default_convlayer_sizes default_filter_shape
    default_outputsize default_padding g = (Raise IndexError, g).
Proof. reflexivity. Qed.

(* ===================================================================== *)
(** ** Properties of the module *)
(* ===================================================================== *)

(** C1.  The docstring of [onelayer] promises, as fifth element, the
    cross-entropy loss "for each image in the batch".  The code puts the
    result of [tf.losses.softmax_cross_entropy] there, which is reduced
    inside the call.  On the driver's graph ([mnist_onelayer]: both
    placeholders and [onelayer] with width 10) the logits have one row per
    image, but the fifth element has the static shape [()] of a scalar; on
    a batch of two images its value is one number, the mean of the two
    per-example losses, and the sixth element has the same value. *)
Theorem onelayer_batch_xentropy_is_one_number :
  exists w b preds g,
    mnist_onelayer empty_graph
      = (Return (mnist_X, mnist_Y,
                 (w, b, mnist_logits, preds, mnist_batch_xentropy, mnist_batch_loss)), g)
    /\ get_shape mnist_X = Some [None; Some 784]
    /\ get_shape mnist_logits = Some [None; Some 10]
    /\ get_shape mnist_batch_xentropy = Some []
    /\ forall (images targets weights biases : list R),
         let fd := feed_dict mnist_X {| nd_shape := [2%nat; 784%nat]; nd_data := images |}
                             mnist_Y {| nd_shape := [2%nat; 10%nat]; nd_data := targets |} in
         let vars := variables (mnist_session weights biases) in
         exists vl,
           eval fd vars mnist_logits = Some vl /\ nd_shape vl = [2%nat; 10%nat]
           /\ eval fd vars mnist_batch_xentropy
              = Some (scalar (mean [xentropy_row (row targets 10 0) (row (nd_data vl) 10 0);
                                    xentropy_row (row targets 10 1) (row (nd_data vl) 10 1)]))
           /\ eval fd vars mnist_batch_loss = eval fd vars mnist_batch_xentropy.
Proof.
  do 4 eexists.
  split; [vm_compute; reflexivity|].
  do 3 (split; [reflexivity|]).
  intros images targets weights biases fd vars.
  assert (Unfed : forall name, name <> "image_input" -> name <> "image_target_onehot" ->
                               fd !! name = None).
  { intros name H1 H2. unfold fd, feed_dict. cbn [tensor_name mnist_X mnist_Y].
    rewrite !lookup_insert_ne by congruence. apply lookup_empty. }
  destruct (eval_dense_loss fd vars mnist_X mnist_Y "weights" "biases" "MatMul" "add"
              "softmax_cross_entropy_loss"
              (RandomNormal "random_normal" [784; 10] (PyFloat 0)
                 (PySqrt (PyTrueDiv 2 784)) float32)
              (Zeros "zeros" [10] float32)
              {| nd_shape := [2%nat; 784%nat]; nd_data := images |}
              {| nd_shape := [2%nat; 10%nat]; nd_data := targets |}
              {| nd_shape := [784%nat; 10%nat]; nd_data := weights |}
              {| nd_shape := [10%nat]; nd_data := biases |}
              2 784 10)
    as (vl & EL & SL & EXE); try reflexivity; try (apply Unfed; discriminate).
  exists vl. split; [exact EL|]. split; [exact SL|]. split; [exact EXE|].
  apply eval_Mean_of_loss; apply Unfed; discriminate.
Qed.

(** C2.  [convnet] takes a [padding] argument and never reads it: both
    layers are built with the literal ["same"].  So the result is the same
    for every padding argument; with [padding="valid"] on 28 x 28 images
    both layers are [SAME] layers of 28 x 28 outputs, where a layer built
    with the given mode has 26 x 26 outputs. *)
Theorem convnet_ignores_padding :
  (forall X Y convlayer_sizes filter_shape outputsize padding,
      convnet X Y convlayer_sizes filter_shape outputsize padding
      = convnet X Y convlayer_sizes filter_shape outputsize "same")
  /\ exists conv1 conv2 w b logits preds batch_xentropy batch_loss g n1 k1 b1 n2 k2 b2,
       convnet image_batch onehot_targets [10; 10] [3; 3] 10 "valid" empty_graph
         = (Return (conv1, conv2, w, b, logits, preds, batch_xentropy, batch_loss), g)
       /\ conv1 = Conv2D n1 image_batch k1 b1 SAME (Some relu_fn)
       /\ conv2 = Conv2D n2 conv1 k2 b2 SAME (Some relu_fn)
       /\ get_shape conv1 = Some [None; Some 28; Some 28; Some 10]
       /\ get_shape conv2 = Some [None; Some 28; Some 28; Some 10]
       /\ exists valid1 g1,
            tf.layers.conv2d image_batch 10 [3; 3] "valid" (Some relu_fn) "conv1" empty_graph
              = (Return valid1, g1)
            /\ get_shape valid1 = Some [None; Some 26; Some 26; Some 10].
Proof.
  split; [reflexivity|].
  do 15 eexists.
  split; [vm_compute; reflexivity|].
  do 4 (split; [reflexivity|]).
  do 2 eexists. split; [vm_compute; reflexivity | reflexivity].
Qed.

(** C3.  In a tuple returned by [onelayer] or by [twolayer], the
    [batch_xentropy] element is a scalar (the loss call has already
    averaged over the batch), and under every feed dictionary and variable
    store that do not feed these two nodes themselves, [batch_loss] has
    exactly the value of [batch_xentropy] (or both fail). *)
Theorem batch_loss_is_batch_xentropy (X Y : tensor) (size1 size2 : Z) (g g' : Graph)
    (w b logits preds batch_xentropy batch_loss : tensor)
    (fd : feeds) (vars : gmap string ndarray) :
  (onelayer X Y size1 g
     = (Return (w, b, logits, preds, batch_xentropy, batch_loss), g')
   \/ exists w2 b2,
        twolayer X Y size1 size2 g
          = (Return (w, b, w2, b2, logits, preds, batch_xentropy, batch_loss), g')) ->
  fd !! tensor_name batch_xentropy = None ->
  fd !! tensor_name batch_loss = None ->
  get_shape batch_xentropy = Some []
  /\ eval fd vars batch_loss = eval fd vars batch_xentropy.
Proof.
  intros [H | (w2 & b2 & H)] Hx Hl.
  - apply onelayer_inv in H as (nx & nl & -> & -> & Hs).
    split; [exact Hs|]. now apply eval_Mean_of_loss.
  - apply twolayer_inv in H as (nx & nl & -> & -> & Hs).
    split; [exact Hs|]. now apply eval_Mean_of_loss.
Qed.

Lemma batch_loss_is_batch_xentropy_witness :
  get_shape mnist_batch_xentropy = Some []
  /\ eval (feed_dict mnist_X {| nd_shape := [2%nat; 784%nat]; nd_data := [] |}
                     mnist_Y {| nd_shape := [2%nat; 10%nat]; nd_data := [] |})
          (variables (mnist_session [] [])) mnist_batch_loss
     = eval (feed_dict mnist_X {| nd_shape := [2%nat; 784%nat]; nd_data := [] |}
                       mnist_Y {| nd_shape := [2%nat; 10%nat]; nd_data := [] |})
            (variables (mnist_session [] [])) mnist_batch_xentropy.
Proof.
  apply (batch_loss_is_batch_xentropy mnist_X mnist_Y 10 0 empty_graph
           (snd (onelayer mnist_X mnist_Y 10 empty_graph))
           (Var "weights" float32
              (RandomNormal "random_normal" [784; 10] (PyFloat 0)
                 (PySqrt (PyTrueDiv 2 784)) float32))
           (Var "biases" float32 (Zeros "zeros" [10] float32))
           mnist_logits (Softmax "Softmax" mnist_logits)).
  - left. vm_compute. reflexivity.
  - reflexivity.
  - reflexivity.
Defined.






(** C6.  On a float32 batch of h x w images with c channels, with layer
    widths, filter sizes, h, w and c at least 1, kernels and weights of no
    more than 2^63 - 1 entries, and in a graph that has no layer [conv1]
    or [conv2] yet, [convnet] returns.  The second convolution keeps the
    height and the width; a reshape flattens it to rows of
    h * w * convlayer_sizes[1] features; and the last six elements of the
    result are exactly what [onelayer] returns on that flattened tensor,
    the target and [outputsize], called in the graph as the reshape left
    it.  The graph [convnet] ends in is the one [onelayer] ends in. *)
Theorem convnet_head_is_onelayer (X Y : tensor) (s0 s1 : Z) (more : list Z) (k1 k2 : Z)
    (outputsize h w c : Z) (d0 : Dimension) (padding : string) (g : Graph) :
  get_shape X = Some [d0; Some h; Some w; Some c] ->
  tensor_dtype X = float32 ->
  1 <= h -> 1 <= w -> 1 <= c ->
  1 <= s0 -> 1 <= s1 -> 1 <= k1 -> 1 <= k2 -> 0 <= outputsize ->
  k1 * k2 * c * s0 <= max_int64 ->
  k1 * k2 * s0 * s1 <= max_int64 ->
  h * w * s1 <= max_int64 ->
  h * w * s1 * outputsize <= max_int64 ->
  is_compatible_with (Some [d0; Some outputsize]) (get_shape Y) = true ->
  "conv1/kernel" ∉ variable_store g -> "conv1/bias" ∉ variable_store g ->
  "conv2/kernel" ∉ variable_store g -> "conv2/bias" ∉ variable_store g ->
  exists conv1 conv2 nreshape g1 g2 g3 wt b logits preds batch_xentropy batch_loss g',
    let conv2_vector := Reshape nreshape conv2 [-1; h * w * s1] in
    convnet X Y (s0 :: s1 :: more) [k1; k2] outputsize padding g
      = (Return (conv1, conv2, wt, b, logits, preds, batch_xentropy, batch_loss), g')
    /\ tf.layers.conv2d X s0 [k1; k2] "same" (Some relu_fn) "conv1" g = (Return conv1, g1)
    /\ tf.layers.conv2d conv1 s1 [k1; k2] "same" (Some relu_fn) "conv2" g1
       = (Return conv2, g2)
    /\ get_shape conv2 = Some [d0; Some h; Some w; Some s1]
    /\ tf.reshape conv2 [-1; h * w * s1] g2 = (Return conv2_vector, g3)
    /\ get_shape conv2_vector = Some [d0; Some (h * w * s1)]
    /\ onelayer conv2_vector Y outputsize g3
       = (Return (wt, b, logits, preds, batch_xentropy, batch_loss), g').
Proof.
  intros HX DX Hh Hw Hc Hs0 Hs1 Hk1 Hk2 Ho C1 C2 C3 C4 HY N1k N1b N2k N2b.
  assert (Hk : 1 <= k1 * k2) by nia.
  assert (Hkc : 1 <= k1 * k2 * c) by nia.
  assert (Hks : 1 <= k1 * k2 * s0) by nia.
  assert (Hcs : 1 <= c * s0) by nia.
  assert (Hkcs : 1 <= k2 * (c * s0)) by nia.
  assert (Hkcs' : 1 <= k1 * (c * s0)) by nia.
  assert (B0 : s0 <= max_int64).
  { apply Z.le_trans with (k1 * k2 * c * s0); [|exact C1]. apply le_mul_l; lia. }
  assert (B1 : s1 <= max_int64).
  { apply Z.le_trans with (k1 * k2 * s0 * s1); [|exact C2]. apply le_mul_l; lia. }
  assert (Bk1 : k1 <= max_int64).
  { apply Z.le_trans with (k1 * k2 * c * s0); [|exact C1].
    replace (k1 * k2 * c * s0) with (k2 * (c * s0) * k1) by ring. apply le_mul_l; lia. }
  assert (Bk2 : k2 <= max_int64).
  { apply Z.le_trans with (k1 * k2 * c * s0); [|exact C1].
    replace (k1 * k2 * c * s0) with (k1 * (c * s0) * k2) by ring. apply le_mul_l; lia. }
  destruct (conv2d_same_returns X s0 k1 k2 h w c d0 (Some relu_fn) "conv1" g HX DX)
    as (conv1 & g1 & E1 & _ & S1 & D1 & V1 & _); try lia; try assumption;
    [discriminate|].
  destruct (conv2d_same_returns conv1 s1 k1 k2 h w s0 d0 (Some relu_fn) "conv2" g1 S1 D1)
    as (conv2 & g2 & E2 & _ & S2 & D2 & V2 & _); try lia; try discriminate.
  { rewrite V1. apply not_in_extended_store; [discriminate | discriminate | assumption]. }
  { rewrite V1. apply not_in_extended_store; [discriminate | discriminate | assumption]. }
  assert (HR : reshape_shape (get_shape conv2) [-1; h * w * s1]
               = Return (Some [d0; Some (h * w * s1)])).
  { rewrite S2. now apply reshape_shape_flatten. }
  destruct (reshape_returns conv2 [-1; h * w * s1] _ g2 HR) as (nr & g3 & E3 & _).
  assert (SV : get_shape (Reshape nr conv2 [-1; h * w * s1])
               = Some [d0; Some (h * w * s1)]).
  { cbn [get_shape]. now rewrite HR. }
  destruct (onelayer_returns (Reshape nr conv2 [-1; h * w * s1]) Y outputsize
              (h * w * s1) d0 g3 SV D2)
    as (n1 & n2 & n3 & n4 & n5 & n6 & n7 & n8 & n9 & g4 & E4 & _);
    [nia | lia | lia | exact HY |].
  cbv zeta in E4.
  exists conv1, conv2, nr, g1, g2, g3. do 6 eexists. exists g4. cbv zeta.
  split; [|split; [|split; [|split; [|split; [|split]]]]].
  - unfold convnet. rewrite HX.
    cbn [shape_getitem getitem nth_error value]. rewrite !bind_lift_return.
    rewrite (bind_return _ _ _ _ _ E1). cbv beta. rewrite bind_lift_return.
    rewrite (bind_return _ _ _ _ _ E2). cbv beta.
    cbn [mul value]. rewrite !bind_lift_return.
    rewrite (bind_return _ _ _ _ _ E3). cbv beta.
    rewrite (bind_return _ _ _ _ _ E4). reflexivity.
  - exact E1.
  - exact E2.
  - exact S2.
  - exact E3.
  - exact SV.
  - exact E4.
Qed.

Lemma convnet_head_is_onelayer_witness :
  exists result g', convnet image_batch onehot_targets [10; 10] [3; 3] 10 "same" empty_graph
                    = (Return result, g').
Proof.
  destruct (convnet_head_is_onelayer image_batch onehot_targets 10 10 [] 3 3 10 28 28 1 None
              "same" empty_graph)
    as (conv1 & conv2 & nr & g1 & g2 & g3 & wt & b & logits & preds & xe & loss & g' & E & _);
    try reflexivity; try (unfold max_int64; lia); try apply not_elem_of_empty.
  eexists. exists g'. exact E.
Defined.



(** C8.  When the second static dimension of [X] is not known ([X] has an
    unknown dimension there, or a shape of unknown rank), [onelayer] raises
    at its first arithmetic step, [2 / None], and the graph is as it was:
    no node has been created. *)
Theorem onelayer_unknown_feature_dimension (X Y : tensor) (layersize : Z) (g : Graph) :
  shape_getitem (get_shape X) 1 = Return None ->
  onelayer X Y layersize g = (Raise TypeError, g).
Proof.
  intros H. unfold onelayer. rewrite H. reflexivity.
Qed.

Lemma onelayer_unknown_feature_dimension_witness :
  onelayer (Placeholder "x" float32 (Some [None; None])) mnist_Y 10 empty_graph
  = (Raise TypeError, empty_graph).
Proof.
  apply (onelayer_unknown_feature_dimension (Placeholder "x" float32 (Some [None; None]))).
  reflexivity.
Defined.

(** C9.  In every graph, [input_placeholder] returns a float32 placeholder
    of static shape (any, 784) and [target_placeholder] a float32
    placeholder of static shape (any, 10); for every positive n, an array
    of n rows of 784 (of 10) numbers fits the one (the other), and a
    session that is fed it returns it. *)
Theorem placeholders_take_any_batch (g : Graph) :
  exists nx ny gx gy,
    let X := Placeholder nx float32 (Some [None; Some 784]) in
    let Y := Placeholder ny float32 (Some [None; Some 10]) in
    input_placeholder g = (Return X, gx)
    /\ target_placeholder g = (Return Y, gy)
    /\ tensor_dtype X = float32 /\ get_shape X = Some [None; Some 784]
    /\ tensor_dtype Y = float32 /\ get_shape Y = Some [None; Some 10]
    /\ forall (n : positive) (images targets : list R) (sess : Session),
         let a := {| nd_shape := [Pos.to_nat n; 784%nat]; nd_data := images |} in
         let b := {| nd_shape := [Pos.to_nat n; 10%nat]; nd_data := targets |} in
         is_compatible_with (get_shape X) (array_shape a) = true
         /\ is_compatible_with (get_shape Y) (array_shape b) = true
         /\ fst (Session.run [FetchTensor X] {[ nx := (X, a) ]} sess)
            = Return [FetchedArray a]
         /\ fst (Session.run [FetchTensor Y] {[ ny := (Y, b) ]} sess)
            = Return [FetchedArray b].
Proof.
  destruct (placeholder_returns float32 (Some [None; Some 784]) "image_input" g)
    as (nx & gx & EX & _).
  destruct (placeholder_returns float32 (Some [None; Some 10]) "image_target_onehot" g)
    as (ny & gy & EY & _).
  exists nx, ny, gx, gy. cbv zeta.
  split; [exact EX|]. split; [exact EY|].
  do 4 (split; [reflexivity|]).
  intros n images targets sess.
  split; [now apply rows_fit|]. split; [now apply rows_fit|]. split.
  - apply (run_fetch_fed (Placeholder nx float32 (Some [None; Some 784]))).
    now apply rows_fit.
  - apply (run_fetch_fed (Placeholder ny float32 (Some [None; Some 10]))).
    now apply rows_fit.
Qed.

(* ===================================================================== *)
(** ** Names of nodes *)
(* ===================================================================== *)

Lemma show_nat_inj (i j : nat) : show_nat i = show_nat j -> i = j.
Proof.
  unfold show_nat. intros H.
  apply DecimalNat.Unsigned.to_uint_inj.
  assert (E : NilEmpty.uint_of_string (NilEmpty.string_of_uint (Nat.to_uint i))
              = NilEmpty.uint_of_string (NilEmpty.string_of_uint (Nat.to_uint j)))
    by now rewrite H.
  rewrite !NilEmpty.usu in E. now inversion E.
Qed.

Lemma candidate_inj (base : string) (i j : nat) :
  base ++ "_" ++ show_nat i = base ++ "_" ++ show_nat j -> i = j.
Proof.
  intros H. apply (inj (String.app base)) in H.
  apply (inj (String.app "_")) in H. now apply show_nat_inj.
Qed.

(** With more fuel than names still to rule out, the search ends on a name
    that the table does not hold. *)
Lemma first_free_fresh (fuel : nat) (used : gmap string nat) (base : string) (i : nat)
    (T : gset string) :
  (forall j, (i <= j)%nat -> is_Some (used !! (base ++ "_" ++ show_nat j)) ->
             base ++ "_" ++ show_nat j ∈ T) ->
  (size T < fuel)%nat ->
  used !! first_free fuel used base i = None.
Proof.
  revert i T. induction fuel as [|fuel IH]; intros i T HT Hsize; [lia|].
  cbn [first_free].
  destruct (used !! (base ++ "_" ++ show_nat i)) as [v|] eqn:E; [|exact E].
  apply (IH (S i) (T ∖ {[ base ++ "_" ++ show_nat i ]})).
  - intros j Hj Hin. apply elem_of_difference. split.
    + apply HT; [lia | exact Hin].
    + rewrite elem_of_singleton. intros Heq. apply candidate_inj in Heq. lia.
  - assert (Hi : base ++ "_" ++ show_nat i ∈ T) by (apply HT; [lia | now rewrite E]).
    pose proof (size_difference T {[ base ++ "_" ++ show_nat i ]}) as Hd.
    rewrite size_singleton in Hd.
    assert (Hsub : ({[ base ++ "_" ++ show_nat i ]} : gset string) ⊆ T)
      by now apply singleton_subseteq_l.
    specialize (Hd Hsub).
    assert (size T > 0)%nat.
    { destruct (decide (size T = 0%nat)) as [Hz|]; [|lia].
      apply size_empty_inv in Hz. set_solver. }
    lia.
Qed.

Lemma lookup_insert_is_Some_mono (m : gmap string nat) (i k : string) (x : nat) :
  is_Some (m !! k) -> is_Some (<[i := x]> m !! k).
Proof.
  intros H. destruct (decide (i = k)) as [->|Hne].
  - rewrite lookup_insert_eq. eauto.
  - now rewrite lookup_insert_ne.
Qed.

Lemma lookup_insert_positive (m : gmap string nat) (i : string) (x : nat) :
  (1 <= x)%nat ->
  (forall k v, m !! k = Some v -> (1 <= v)%nat) ->
  forall k v, <[i := x]> m !! k = Some v -> (1 <= v)%nat.
Proof.
  intros Hx Hm k v. destruct (decide (i = k)) as [->|Hne].
  - rewrite lookup_insert_eq. intros H. inversion H. lia.
  - rewrite lookup_insert_ne by exact Hne. apply Hm.
Qed.

Lemma unique_name_fresh (name : string) (g : Graph) :
  (forall k v, names_in_use g !! k = Some v -> (1 <= v)%nat) ->
  exists n g',
    unique_name name g = (Return n, g')
    /\ names_in_use g !! n = None
    /\ is_Some (names_in_use g' !! n)
    /\ (forall k, is_Some (names_in_use g !! k) -> is_Some (names_in_use g' !! k))
    /\ (forall k v, names_in_use g' !! k = Some v -> (1 <= v)%nat)
    /\ operations g' = operations g
    /\ variable_store g' = variable_store g.
Proof.
  intros Hpos. unfold unique_name.
  destruct (names_in_use g !! name) as [v|] eqn:E; cbn [default].
  - pose proof (Hpos _ _ E) as Hv. destruct v as [|v]; [lia|].
    set (used1 := <[name := S (S v)]> (names_in_use g)).
    set (n := first_free (S (size used1)) used1 name (S v)).
    assert (Hn : used1 !! n = None).
    { apply (first_free_fresh _ _ _ _ (dom used1)).
      - intros j _ Hin. now apply elem_of_dom.
      - rewrite size_dom. lia. }
    assert (Hne : name <> n).
    { intros Heq. rewrite <- Heq in Hn. unfold used1 in Hn.
      now rewrite lookup_insert_eq in Hn. }
    exists n. eexists. split; [reflexivity|]. cbn [names_in_use operations variable_store].
    split.
    { unfold used1 in Hn. now rewrite lookup_insert_ne in Hn by exact Hne. }
    split; [rewrite lookup_insert_eq; eauto|].
    split.
    { intros k Hk. now do 2 apply lookup_insert_is_Some_mono. }
    split; [|split; reflexivity].
    apply lookup_insert_positive; [lia|].
    apply lookup_insert_positive; [lia | exact Hpos].
  - exists name. eexists. split; [reflexivity|]. cbn [names_in_use operations variable_store].
    split; [exact E|].
    split; [rewrite lookup_insert_eq; eauto|].
    split.
    { intros k Hk. now apply lookup_insert_is_Some_mono. }
    split; [|split; reflexivity].
    apply lookup_insert_positive; [lia | exact Hpos].
Qed.

(** In a well-formed graph a new node gets a name that no node has. *)
Lemma create_op_fresh (name : string) (g : Graph) :
  graph_wf g ->
  exists n g',
    create_op name g = (Return n, g')
    /\ (n ∉ operations g)
    /\ operations g' = (operations g ++ [n])%list
    /\ variable_store g' = variable_store g
    /\ graph_wf g'.
Proof.
  intros (Hnd & Hin & Hpos).
  destruct (unique_name_fresh name g Hpos) as (n & g1 & E & Hnone & Hsome & Hmono & Hpos1 & O1 & V1).
  assert (Hfresh : n ∉ operations g).
  { intros H. apply Hin in H. rewrite Hnone in H. now destruct H. }
  exists n. eexists. unfold create_op. rewrite E.
  split; [reflexivity|]. cbn [names_in_use operations variable_store].
  split; [exact Hfresh|]. split; [now rewrite O1|]. split; [exact V1|].
  split; [|split]; cbn [names_in_use operations].
  - rewrite O1. apply NoDup_app. split; [exact Hnd|]. split.
    + intros x Hx Hx'. apply list_elem_of_singleton in Hx'. now subst.
    + apply NoDup_singleton.
  - intros k Hk. rewrite O1 in Hk. apply elem_of_app in Hk as [Hk|Hk].
    + apply Hmono, Hin, Hk.
    + apply list_elem_of_singleton in Hk. now subst.
  - exact Hpos1.
Qed.

Lemma graph_wf_empty : graph_wf empty_graph.
Proof.
  split; [apply NoDup_nil_2|]. split.
  - intros n H. cbn in H. now apply not_elem_of_nil in H.
  - intros k v H. cbn in H. now rewrite lookup_empty in H.
Qed.

Lemma grows_refl g : grows g g.
Proof. exists []. now rewrite app_nil_r. Qed.

Lemma grows_trans g1 g2 g3 : grows g1 g2 -> grows g2 g3 -> grows g1 g3.
Proof.
  intros [l1 E1] [l2 E2]. exists (l1 ++ l2)%list. now rewrite E2, E1, <- app_assoc.
Qed.

Lemma grows_elem g g' n : grows g g' -> n ∈ operations g -> n ∈ operations g'.
Proof. intros [l E] H. rewrite E. apply elem_of_app. now left. Qed.

(** *** Every call keeps the graph well-formed *)

Lemma keeps_wf_ret {A} (a : A) : keeps_wf (ret a).
Proof. intros g H. split; [exact H | apply grows_refl]. Qed.

Lemma keeps_wf_raise {A} (e : exception) : keeps_wf (raise e : Build A).
Proof. intros g H. split; [exact H | apply grows_refl]. Qed.

Lemma keeps_wf_lift {A} (o : outcome A) : keeps_wf (lift o).
Proof. destruct o; [apply keeps_wf_ret | apply keeps_wf_raise]. Qed.

Lemma keeps_wf_bind {A B} (c : Build A) (k : A -> Build B) :
  keeps_wf c -> (forall a, keeps_wf (k a)) -> keeps_wf (bind c k).
Proof.
  intros Hc Hk g Hg. unfold bind.
  destruct (Hc g Hg) as [H1 G1].
  destruct (c g) as [[a|e] g1]; cbn [snd] in *.
  - destruct (Hk a g1 H1) as [H2 G2]. split; [exact H2|].
    exact (grows_trans _ _ _ G1 G2).
  - split; assumption.
Qed.

Lemma keeps_wf_create_op (name : string) : keeps_wf (create_op name).
Proof.
  intros g Hg.
  destruct (create_op_fresh name g Hg) as (n & g' & E & _ & O & _ & Hwf).
  rewrite E. cbn [snd]. split; [exact Hwf|]. now exists [n].
Qed.

(** Changing the variable store does not touch the nodes. *)
Lemma graph_wf_store g store :
  graph_wf g ->
  graph_wf {| names_in_use := names_in_use g; operations := operations g;
              variable_store := store |}.
Proof. intros H. exact H. Qed.

Lemma keeps_wf_get_variable name dt init : keeps_wf (tf.layers.get_variable name dt init).
Proof.
  intros g Hg. unfold tf.layers.get_variable.
  destruct (decide (name ∈ variable_store g)).
  - split; [exact Hg | apply grows_refl].
  - destruct (check_elements (initializer_shape init)).
    + set (g0 := {| names_in_use := names_in_use g; operations := operations g;
                    variable_store := {[name]} ∪ variable_store g |}).
      assert (K : keeps_wf (do n <- create_op name; ret (Var n dt init))).
      { apply keeps_wf_bind; [apply keeps_wf_create_op | intros; apply keeps_wf_ret]. }
      destruct (K g0 (graph_wf_store g _ Hg)) as [H1 [l G1]].
      split; [exact H1|]. exists l. exact G1.
    + split; [exact Hg | apply grows_refl].
Qed.

(** One step of a proof that a computation keeps graphs well-formed. *)
Ltac keeps_wf_step :=
  first
    [ apply keeps_wf_ret
    | apply keeps_wf_raise
    | apply keeps_wf_lift
    | apply keeps_wf_create_op
    | apply keeps_wf_get_variable
    | apply keeps_wf_bind; [|intros]
    | match goal with
      | |- keeps_wf (if ?b then _ else _) => destruct b
      | |- keeps_wf (match ?x with _ => _ end) => destruct x
      end ].

Lemma keeps_wf_placeholder dt shape name : keeps_wf (tf.placeholder dt shape name).
Proof. unfold tf.placeholder. repeat keeps_wf_step. Qed.

Lemma keeps_wf_random_normal shape stddev : keeps_wf (tf.random_normal shape stddev).
Proof. unfold tf.random_normal. repeat keeps_wf_step. Qed.

Lemma keeps_wf_zeros shape : keeps_wf (tf.zeros shape).
Proof. unfold tf.zeros. repeat keeps_wf_step. Qed.

Lemma keeps_wf_Variable init name dt : keeps_wf (tf.Variable_ init name dt).
Proof. unfold tf.Variable_. repeat keeps_wf_step. Qed.

Lemma keeps_wf_matmul a b : keeps_wf (tf.matmul a b).
Proof. unfold tf.matmul. repeat keeps_wf_step. Qed.

Lemma keeps_wf_add a b : keeps_wf (tf.add a b).
Proof. unfold tf.add. repeat keeps_wf_step. Qed.

Lemma keeps_wf_reduce_mean x : keeps_wf (tf.reduce_mean x).
Proof. unfold tf.reduce_mean. repeat keeps_wf_step. Qed.

Lemma keeps_wf_reshape x s : keeps_wf (tf.reshape x s).
Proof. unfold tf.reshape. repeat keeps_wf_step. Qed.

Lemma keeps_wf_relu x : keeps_wf (tf.nn.relu x).
Proof. unfold tf.nn.relu. repeat keeps_wf_step. Qed.

Lemma keeps_wf_softmax x : keeps_wf (tf.nn.softmax x).
Proof. unfold tf.nn.softmax. repeat keeps_wf_step. Qed.

Lemma keeps_wf_softmax_cross_entropy y l : keeps_wf (tf.losses.softmax_cross_entropy y l).
Proof. unfold tf.losses.softmax_cross_entropy. repeat keeps_wf_step. Qed.

Lemma keeps_wf_conv2d x f k p act name : keeps_wf (tf.layers.conv2d x f k p act name).
Proof. unfold tf.layers.conv2d. repeat keeps_wf_step. Qed.

Ltac keeps_wf_call :=
  first
    [ apply keeps_wf_placeholder | apply keeps_wf_random_normal | apply keeps_wf_zeros
    | apply keeps_wf_Variable | apply keeps_wf_matmul | apply keeps_wf_add
    | apply keeps_wf_reduce_mean | apply keeps_wf_reshape | apply keeps_wf_relu
    | apply keeps_wf_softmax | apply keeps_wf_softmax_cross_entropy
    | apply keeps_wf_conv2d
    | apply keeps_wf_ret | apply keeps_wf_raise | apply keeps_wf_lift
    | apply keeps_wf_bind; [|intros]; cbv zeta
    | match goal with
      | |- keeps_wf (match ?x with _ => _ end) => destruct x
      end ].

Lemma keeps_wf_onelayer X Y layersize : keeps_wf (onelayer X Y layersize).
Proof. unfold onelayer. repeat keeps_wf_call. Qed.

Lemma keeps_wf_twolayer X Y hiddensize outputsize :
  keeps_wf (twolayer X Y hiddensize outputsize).
Proof. unfold twolayer. repeat keeps_wf_call. Qed.

Lemma keeps_wf_convnet X Y sizes filter_shape outputsize padding :
  keeps_wf (convnet X Y sizes filter_shape outputsize padding).
Proof.
  unfold convnet. repeat keeps_wf_call.
  all: try apply keeps_wf_onelayer.
Qed.

(** *** Every returned tensor is a new node *)

Lemma keeps_wf_run {A} (c : Build A) g r g1 :
  keeps_wf c -> graph_wf g -> c g = (r, g1) -> graph_wf g1 /\ grows g g1.
Proof. intros K Hg E. specialize (K g Hg). now rewrite E in K. Qed.

Lemma makes_node_create (name : string) (f : string -> tensor) :
  (forall n, tensor_name (f n) = n) ->
  makes_node (do n <- create_op name; ret (f n)).
Proof.
  intros Hf g t g' Hg H.
  destruct (create_op_fresh name g Hg) as (n & g1 & E & Hfresh & O & _ & _).
  rewrite (bind_return _ _ _ _ _ E) in H. apply ret_inv in H as [-> ->].
  rewrite Hf, O. split; [exact Hfresh|]. apply elem_of_app. right.
  now apply list_elem_of_singleton.
Qed.

Lemma makes_node_bind {A} (c : Build A) (k : A -> Build tensor) :
  keeps_wf c -> (forall a, makes_node (k a)) -> makes_node (bind c k).
Proof.
  intros Kc Hk g t g' Hg H.
  apply bind_inv in H as (a & g1 & E & H).
  destruct (keeps_wf_run c g _ g1 Kc Hg E) as [Hg1 G1].
  destruct (Hk a g1 t g' Hg1 H) as [Hout Hin].
  split; [|exact Hin].
  intros Hold. apply Hout. exact (grows_elem _ _ _ G1 Hold).
Qed.

Lemma makes_node_raise (e : exception) : makes_node (raise e).
Proof. intros g t g' _ H. discriminate H. Qed.

Lemma makes_node_get_variable name dt init :
  makes_node (tf.layers.get_variable name dt init).
Proof.
  intros g t g' Hg H. unfold tf.layers.get_variable in H.
  destruct (decide (name ∈ variable_store g)); [discriminate H|].
  destruct (check_elements (initializer_shape init)); [|discriminate H].
  exact (makes_node_create name (fun n => Var n dt init) (fun _ => eq_refl)
           _ t g' (graph_wf_store g _ Hg) H).
Qed.

Ltac makes_node_step :=
  first
    [ apply makes_node_raise
    | apply makes_node_create; intros; reflexivity
    | apply makes_node_bind; [solve [repeat keeps_wf_step] | intros]
    | match goal with
      | |- makes_node (if ?b then _ else _) => destruct b
      end ].

Lemma makes_node_placeholder dt shape name : makes_node (tf.placeholder dt shape name).
Proof. unfold tf.placeholder. repeat makes_node_step. Qed.

Lemma makes_node_Variable init name dt : makes_node (tf.Variable_ init name dt).
Proof. unfold tf.Variable_. repeat makes_node_step. Qed.

Lemma makes_node_matmul a b : makes_node (tf.matmul a b).
Proof. unfold tf.matmul. repeat makes_node_step. Qed.

Lemma makes_node_add a b : makes_node (tf.add a b).
Proof. unfold tf.add. repeat makes_node_step. Qed.

Lemma makes_node_reduce_mean x : makes_node (tf.reduce_mean x).
Proof. unfold tf.reduce_mean. repeat makes_node_step. Qed.

Lemma makes_node_reshape x s : makes_node (tf.reshape x s).
Proof. unfold tf.reshape. repeat makes_node_step. Qed.

Lemma makes_node_relu x : makes_node (tf.nn.relu x).
Proof. unfold tf.nn.relu. repeat makes_node_step. Qed.

Lemma makes_node_softmax x : makes_node (tf.nn.softmax x).
Proof. unfold tf.nn.softmax. repeat makes_node_step. Qed.

Lemma makes_node_softmax_cross_entropy y l :
  makes_node (tf.losses.softmax_cross_entropy y l).
Proof. unfold tf.losses.softmax_cross_entropy. repeat makes_node_step. Qed.

Lemma makes_node_conv2d x f k p act name : makes_node (tf.layers.conv2d x f k p act name).
Proof. unfold tf.layers.conv2d. repeat makes_node_step. Qed.

Lemma makes_node_run (c : Build tensor) g t g1 :
  makes_node c -> graph_wf g -> c g = (Return t, g1) -> new_in g g1 t.
Proof. intros M Hg E. exact (M g t g1 Hg E). Qed.

Lemma new_in_widen g0 g g1 g' t :
  grows g0 g -> grows g1 g' -> new_in g g1 t -> new_in g0 g' t.
Proof.
  intros G0 G1 [Hout Hin]. split.
  - intros H. apply Hout. exact (grows_elem _ _ _ G0 H).
  - exact (grows_elem _ _ _ G1 Hin).
Qed.

(** Takes the first call off a run that returned, and records what it did
    to the graph. *)
Ltac run_step H :=
  match type of H with
  | bind ?c ?k ?g = (Return _, _) =>
      let a := fresh "a" in
      let g1 := fresh "g" in
      let Hs := fresh "Hs" in
      let Hw := fresh "Hw" in
      let Hg := fresh "Hg" in
      apply bind_inv in H as (a & g1 & Hs & H);
      assert (graph_wf g1 /\ grows g g1) as [Hw Hg]
        by (eapply keeps_wf_run; [ | eassumption | exact Hs ]; repeat keeps_wf_call);
      cbv zeta in H;
      try (let Hn := fresh "Hn" in
           assert (new_in g g1 a) as Hn
             by (eapply makes_node_run; [ | eassumption | exact Hs ];
                 first [ apply makes_node_Variable | apply makes_node_matmul
                       | apply makes_node_add | apply makes_node_reduce_mean
                       | apply makes_node_reshape | apply makes_node_relu
                       | apply makes_node_softmax | apply makes_node_softmax_cross_entropy
                       | apply makes_node_conv2d | apply makes_node_placeholder ]))
  end.

(** Closes [new_in g g' t] from [new_in gi gj t] and the growth steps in
    the context. *)
Ltac new_in_chain :=
  match goal with
  | Hn : new_in ?gi ?gj ?t |- new_in ?g ?g' ?t =>
      apply (new_in_widen g gi gj g' t);
      [ eauto 30 using grows_refl, grows_trans
      | eauto 30 using grows_refl, grows_trans
      | exact Hn ]
  end.

Lemma onelayer_new_nodes (X Y : tensor) (layersize : Z) (g g' : Graph) (r : onelayer_result) :
  graph_wf g ->
  onelayer X Y layersize g = (Return r, g') ->
  graph_wf g' /\ grows g g' /\ Forall (new_in g g') (onelayer_tensors r).
Proof.
  intros Hwf H.
  destruct (keeps_wf_run _ g _ g' (keeps_wf_onelayer X Y layersize) Hwf H) as [Hwf' Hgrow].
  split; [exact Hwf'|]. split; [exact Hgrow|].
  unfold onelayer in H.
  repeat run_step H.
  apply ret_inv in H as [-> ->]. cbn [onelayer_tensors].
  repeat (apply Forall_cons; split; [new_in_chain|]). apply Forall_nil_2.
Qed.

Lemma twolayer_new_nodes (X Y : tensor) (hiddensize outputsize : Z) (g g' : Graph)
    (r : twolayer_result) :
  graph_wf g ->
  twolayer X Y hiddensize outputsize g = (Return r, g') ->
  graph_wf g' /\ grows g g' /\ Forall (new_in g g') (twolayer_tensors r).
Proof.
  intros Hwf H.
  destruct (keeps_wf_run _ g _ g' (keeps_wf_twolayer X Y hiddensize outputsize) Hwf H)
    as [Hwf' Hgrow].
  split; [exact Hwf'|]. split; [exact Hgrow|].
  unfold twolayer in H.
  repeat run_step H.
  apply ret_inv in H as [-> ->]. cbn [twolayer_tensors].
  repeat (apply Forall_cons; split; [new_in_chain|]). apply Forall_nil_2.
Qed.

Lemma Forall_new_in_widen g0 g g1 g' ts :
  grows g0 g -> grows g1 g' -> Forall (new_in g g1) ts -> Forall (new_in g0 g') ts.
Proof.
  intros G0 G1 H. eapply Forall_impl; [exact H|].
  intros t Ht. exact (new_in_widen _ _ _ _ _ G0 G1 Ht).
Qed.

Lemma convnet_new_nodes (X Y : tensor) (sizes filter_shape : list Z) (outputsize : Z)
    (padding : string) (g g' : Graph) (r : convnet_result) :
  graph_wf g ->
  convnet X Y sizes filter_shape outputsize padding g = (Return r, g') ->
  graph_wf g' /\ grows g g' /\ Forall (new_in g g') (convnet_tensors r).
Proof.
  intros Hwf H.
  destruct (keeps_wf_run _ g _ g'
              (keeps_wf_convnet X Y sizes filter_shape outputsize padding) Hwf H)
    as [Hwf' Hgrow].
  split; [exact Hwf'|]. split; [exact Hgrow|].
  unfold convnet in H.
  do 9 run_step H.
  apply bind_inv in H as (six & g_end & Hone & H).
  destruct six as [[[[[w b] logits] preds] xe] loss].
  apply ret_inv in H as [-> ->].
  match type of Hone with
  | onelayer _ _ _ ?gk = _ =>
      destruct (onelayer_new_nodes _ _ _ gk _ _ ltac:(eassumption) Hone) as (_ & Gk & Hsix)
  end.
  cbn [convnet_tensors].
  apply Forall_cons. split; [new_in_chain|].
  apply Forall_cons. split; [new_in_chain|].
  eapply Forall_new_in_widen; [ | apply grows_refl | exact Hsix ].
  eauto 30 using grows_refl, grows_trans.
Qed.

(** Two tensors that were new at different steps are different nodes. *)
Lemma new_in_apart g1 g2 g3 g4 t t' :
  grows g2 g3 -> new_in g1 g2 t -> new_in g3 g4 t' -> tensor_name t <> tensor_name t'.
Proof.
  intros G [_ Hin] [Hout _] Heq. apply Hout. rewrite <- Heq.
  exact (grows_elem _ _ _ G Hin).
Qed.

(* ===================================================================== *)
(** ** Further properties: failures of the builders *)
(* ===================================================================== *)

(** X1.  [onelayer] touches the graph only when the second static
    dimension of [X] is a known int of at least 1: whenever a call ends in a
    graph other than the one it started in, [X.get_shape()[1].value] is
    such an int.  So a call on an input with an unknown, zero or missing
    second dimension leaves the graph as it was. *)
Theorem onelayer_clean_failure (X Y : tensor) (layersize : Z) (g g' : Graph)
    (r : outcome onelayer_result) :
  onelayer X Y layersize g = (r, g') ->
  g' <> g ->
  exists F, 1 <= F /\ shape_getitem (get_shape X) 1 = Return (Some F).
Proof.
  unfold onelayer. intros H Hne.
  destruct (shape_getitem (get_shape X) 1) as [[F|]|e] eqn:E.
  - destruct (Z.lt_trichotomy F 0) as [Hneg | [-> | Hpos]].
    + exfalso. apply Hne. rewrite bind_lift_return in H. unfold value in H.
      rewrite (truediv_returns 2 F) in H by lia. rewrite bind_lift_return in H.
      unfold math.sqrt, pyfloat_negative in H.
      destruct (Z.ltb_spec (2 * F) 0); [|lia]. now inversion H.
    + exfalso. apply Hne. now inversion H.
    + exists F. split; [lia | reflexivity].
  - exfalso. apply Hne. now inversion H.
  - exfalso. apply Hne. now inversion H.
Qed.

Lemma onelayer_clean_failure_witness :
  exists F, 1 <= F /\ shape_getitem (get_shape mnist_X) 1 = Return (Some F).
Proof.
  apply (onelayer_clean_failure mnist_X mnist_Y 10 empty_graph
           (snd (onelayer mnist_X mnist_Y 10 empty_graph))
           (fst (onelayer mnist_X mnist_Y 10 empty_graph))).
  - now destruct (onelayer mnist_X mnist_Y 10 empty_graph).
  - intros H. apply (f_equal operations) in H. vm_compute in H. discriminate H.
Defined.

(** X2.  [twolayer] touches the graph only when both fan-ins are usable:
    the second static dimension of [X] is a known int of at least 1 and
    [hiddensize] is at least 1.  Whenever a call ends in a graph other than
    the one it started in, both hold; so a call with an unusable fan-in
    (which fails on [2 / x_size], [2 / hiddensize] or [math.sqrt]) leaves
    the graph as it was. *)
Theorem twolayer_clean_failure (X Y : tensor) (hiddensize outputsize : Z) (g g' : Graph)
    (r : outcome twolayer_result) :
  twolayer X Y hiddensize outputsize g = (r, g') ->
  g' <> g ->
  1 <= hiddensize
  /\ exists F, 1 <= F /\ shape_getitem (get_shape X) 1 = Return (Some F).
Proof.
  unfold twolayer. intros H Hne.
  destruct (shape_getitem (get_shape X) 1) as [[F|]|e] eqn:E;
    [|exfalso; apply Hne; now inversion H|exfalso; apply Hne; now inversion H].
  rewrite bind_lift_return in H. unfold value in H.
  destruct (Z.lt_trichotomy F 0) as [Hneg | [-> | Hpos]].
  - exfalso. apply Hne.
    rewrite (truediv_returns 2 F) in H by lia. rewrite bind_lift_return in H.
    unfold math.sqrt at 1, pyfloat_negative in H.
    destruct (Z.ltb_spec (2 * F) 0); [|lia]. now inversion H.
  - exfalso. apply Hne. now inversion H.
  - rewrite (truediv_returns 2 F) in H by lia. rewrite bind_lift_return in H.
    rewrite (sqrt_returns 2 F) in H by lia. rewrite bind_lift_return in H.
    destruct (Z.lt_trichotomy hiddensize 0) as [Hneg | [-> | Hh]].
    + exfalso. apply Hne.
      rewrite (truediv_returns 2 hiddensize) in H by lia. rewrite bind_lift_return in H.
      unfold math.sqrt, pyfloat_negative in H.
      destruct (Z.ltb_spec (2 * hiddensize) 0); [|lia]. now inversion H.
    + exfalso. apply Hne. now inversion H.
    + split; [lia|]. exists F. split; [lia | reflexivity].
Qed.

Lemma twolayer_clean_failure_witness :
  1 <= 30 /\ exists F, 1 <= F /\ shape_getitem (get_shape mnist_X) 1 = Return (Some F).
Proof.
  apply (twolayer_clean_failure mnist_X mnist_Y 30 10 empty_graph
           (snd (twolayer mnist_X mnist_Y 30 10 empty_graph))
           (fst (twolayer mnist_X mnist_Y 30 10 empty_graph))).
  - now destruct (twolayer mnist_X mnist_Y 30 10 empty_graph).
  - intros H. apply (f_equal operations) in H. vm_compute in H. discriminate H.
Defined.

(** X3.  [onelayer] compares the targets with the logits only after it has
    built the layer.  For a float32 input of static shape (any, F), F >= 1,
    weights of no more than 2^63 - 1 entries and a target [Y] whose static
    shape does not fit (any, layersize), the call raises [ValueError], and
    the graph it leaves is not the graph it found: no node is gone, and
    there are more nodes than before (the weights and the biases, which
    the caller never receives). *)
Theorem onelayer_target_mismatch (X Y : tensor) (layersize F : Z) (d0 : Dimension)
    (g : Graph) :
  get_shape X = Some [d0; Some F] ->
  tensor_dtype X = float32 ->
  1 <= F <= max_int64 -> 0 <= layersize ->
  F * layersize <= max_int64 ->
  is_compatible_with (Some [d0; Some layersize]) (get_shape Y) = false ->
  exists g',
    onelayer X Y layersize g = (Raise ValueError, g')
    /\ grows g g'
    /\ (length (operations g) < length (operations g'))%nat.
Proof.
  intros HX DX HF Hl HFl HY.
  destruct (layer_variables_return F layersize (PySqrt (PyTrueDiv 2 F)) "weights" "biases" g)
    as (nr & nw & nz & nb & g1 & H1 & K1); [lia | nia | lia |].
  set (w := Var nw float32 _) in *.
  set (b := Var nb float32 _) in *.
  destruct (affine_returns X w b d0 F layersize g1 HX eq_refl eq_refl DX eq_refl eq_refl)
    as (nm & na & g2 & H2 & S2 & K2).
  destruct (adds_nodes_trans _ _ _ _ _ H1 H2) as [O _].
  exists g2. split; [|split].
  - unfold onelayer. rewrite HX.
    cbn [shape_getitem getitem nth_error]. rewrite bind_lift_return.
    unfold value. rewrite (truediv_returns 2 F) by lia. rewrite bind_lift_return.
    rewrite (sqrt_returns 2 F) by lia. rewrite bind_lift_return.
    rewrite K1, K2.
    apply bind_raise. unfold tf.losses.softmax_cross_entropy.
    cbn [tensor_dtype]. rewrite DX. cbn [is_floating].
    rewrite S2. unfold softmax_cross_entropy_shape. rewrite HY. reflexivity.
  - eexists. exact O.
  - rewrite O, length_app. cbn [length app]. lia.
Qed.

Lemma onelayer_target_mismatch_witness :
  exists g', onelayer mnist_X mnist_Y 5 empty_graph = (Raise ValueError, g').
Proof.
  destruct (onelayer_target_mismatch mnist_X mnist_Y 5 784 None empty_graph)
    as (g' & E & _);
    [reflexivity | reflexivity | unfold max_int64; lia | lia | unfold max_int64; lia
    | reflexivity |].
  exists g'. exact E.
Defined.

(** X4.  [convnet] touches the graph only after it has read two spatial
    dimensions and the first layer width: whenever a call ends in a graph
    other than the one it started in, [X.get_shape()[1]] and
    [X.get_shape()[2]] exist and [convlayer_sizes] is not empty.  So a call
    on a flat (any, 784) input, or with an empty list of widths, leaves the
    graph as it was. *)
Theorem convnet_clean_failure (X Y : tensor) (convlayer_sizes filter_shape : list Z)
    (outputsize : Z) (padding : string) (g g' : Graph) (r : outcome convnet_result) :
  convnet X Y convlayer_sizes filter_shape outputsize padding g = (r, g') ->
  g' <> g ->
  exists dx dy filters1,
    shape_getitem (get_shape X) 1 = Return dx
    /\ shape_getitem (get_shape X) 2 = Return dy
    /\ getitem convlayer_sizes 0 = Return filters1.
Proof.
  unfold convnet. intros H Hne.
  destruct (shape_getitem (get_shape X) 1) as [dx|e] eqn:E1;
    [|exfalso; apply Hne; now inversion H].
  destruct (shape_getitem (get_shape X) 2) as [dy|e] eqn:E2;
    [|exfalso; apply Hne; now inversion H].
  destruct (getitem convlayer_sizes 0) as [f1|e] eqn:E3;
    [|exfalso; apply Hne; now inversion H].
  exists dx, dy, f1. repeat split; reflexivity.
Qed.

Lemma convnet_clean_failure_witness :
  exists dx dy filters1,
    shape_getitem (get_shape image_batch) 1 = Return dx
    /\ shape_getitem (get_shape image_batch) 2 = Return dy
    /\ getitem [10; 10] 0 = Return filters1.
Proof.
  apply (convnet_clean_failure image_batch onehot_targets [10; 10] [3; 3] 10 "same"
           empty_graph
           (snd (convnet image_batch onehot_targets [10; 10] [3; 3] 10 "same" empty_graph))
           (fst (convnet image_batch onehot_targets [10; 10] [3; 3] 10 "same" empty_graph))).
  - now destruct (convnet image_batch onehot_targets [10; 10] [3; 3] 10 "same" empty_graph).
  - intros H. apply (f_equal operations) in H. vm_compute in H. discriminate H.
Defined.

(** A layer built with padding ["same"] on an input whose height or width
    may be unknown: the output has the height and width of the input. *)
Lemma conv2d_same_returns_dims (x : tensor) (filters k1 k2 c : Z) (d0 h w : Dimension)
    (act : option activation_fn) (name : string) (g : Graph) :
  get_shape x = Some [d0; h; w; Some c] ->
  tensor_dtype x = float32 ->
  0 <= filters <= max_int64 -> 0 <= k1 <= max_int64 -> 0 <= k2 <= max_int64 ->
  k1 * k2 * c * filters <= max_int64 ->
  name ++ "/kernel" ∉ variable_store g ->
  name ++ "/bias" ∉ variable_store g ->
  name ++ "/bias" <> name ++ "/kernel" ->
  exists n kernel bias g',
    tf.layers.conv2d x filters [k1; k2] "same" act name g
      = (Return (Conv2D n x kernel bias SAME act), g')
    /\ get_shape (Conv2D n x kernel bias SAME act) = Some [d0; h; w; Some filters]
    /\ variable_store g' = {[ name ++ "/bias" ]} ∪ ({[ name ++ "/kernel" ]} ∪ variable_store g)
    /\ operations g' = (operations g ++ [tensor_name kernel; tensor_name bias; n])%list.
Proof.
  intros Hx Dx Hf Hk1 Hk2 Hcount Nk Nb Hne.
  assert (Hshape : conv2d_shape (Some [d0; h; w; Some c])
                     (known_shape [k1; k2; c; filters]) SAME
                   = Return (Some [d0; h; w; Some filters])).
  { cbn [conv2d_shape known_shape map]. rewrite Z.eqb_refl.
    destruct h, w; reflexivity. }
  destruct (get_variable_returns (name ++ "/kernel") float32
              (GlorotUniform (name ++ "/kernel/Initializer") [k1; k2; c; filters] float32)
              g Nk) as (nk & g1 & E1 & O1 & V1).
  { cbn [initializer_shape product fold_right]. lia. }
  destruct (get_variable_returns (name ++ "/bias") float32
              (Zeros (name ++ "/bias/Initializer") [filters] float32) g1)
    as (nb & g2 & E2 & O2 & V2).
  { rewrite V1. intros [Hin|Hin]%elem_of_union; [|contradiction].
    apply elem_of_singleton in Hin. contradiction. }
  { cbn [initializer_shape product fold_right]. lia. }
  destruct (create_op_returns name g2) as (n & g3 & E3 & O3 & V3).
  exists n. do 2 eexists. exists g3. split; [|split; [|split]].
  - unfold tf.layers.conv2d.
    cbn [tf.layers.normalize_kernel_size]. rewrite bind_lift_return.
    change (tf.layers.normalize_padding "same") with (Return SAME).
    rewrite bind_lift_return. cbn [fst snd].
    rewrite check_sizes_returns by (repeat (constructor; [assumption|]); constructor).
    rewrite bind_lift_return. rewrite Dx. cbn [is_floating].
    rewrite Hx. cbn [tf.layers.input_channels]. rewrite bind_lift_return.
    rewrite Hshape. rewrite bind_lift_return.
    rewrite (bind_return _ _ _ _ _ E1), (bind_return _ _ _ _ _ E2),
      (bind_return _ _ _ _ _ E3).
    reflexivity.
  - cbn [get_shape]. rewrite Hx. cbn [initializer_shape]. now rewrite Hshape.
  - rewrite V3, V2, V1. reflexivity.
  - cbn [tensor_name]. rewrite O3, O2, O1. now rewrite <- !app_assoc.
Qed.

(** X5.  On a float32 batch of images whose height or width is not
    statically known (channels, layer widths and filter sizes at least 1,
    kernels of no more than 2^63 - 1 entries, no layer [conv1] or [conv2]
    in the graph yet), [convnet] raises [TypeError], at
    [image_x * image_y], only after it has built both convolution layers:
    the graph has grown, and the kernels and biases of both layers are
    among its variables. *)
Theorem convnet_unknown_image_size (X Y : tensor) (s0 s1 : Z) (more : list Z) (k1 k2 : Z)
    (outputsize c : Z) (d0 h w : Dimension) (padding : string) (g : Graph) :
  get_shape X = Some [d0; h; w; Some c] ->
  h = None \/ w = None ->
  tensor_dtype X = float32 ->
  1 <= c -> 1 <= s0 -> 1 <= s1 -> 1 <= k1 -> 1 <= k2 ->
  k1 * k2 * c * s0 <= max_int64 ->
  k1 * k2 * s0 * s1 <= max_int64 ->
  "conv1/kernel" ∉ variable_store g -> "conv1/bias" ∉ variable_store g ->
  "conv2/kernel" ∉ variable_store g -> "conv2/bias" ∉ variable_store g ->
  exists g',
    convnet X Y (s0 :: s1 :: more) [k1; k2] outputsize padding g = (Raise TypeError, g')
    /\ grows g g'
    /\ (length (operations g) < length (operations g'))%nat
    /\ ({[ "conv1/kernel"; "conv1/bias"; "conv2/kernel"; "conv2/bias" ]} : gset string)
       ⊆ variable_store g'.
Proof.
  intros HX Hhw DX Hc Hs0 Hs1 Hk1 Hk2 C1 C2 N1k N1b N2k N2b.
  assert (Hks : 1 <= k1 * k2 * s0) by nia.
  assert (Hcs : 1 <= c * s0) by nia.
  assert (Hkc : 1 <= k1 * k2 * c) by nia.
  assert (Hkcs : 1 <= k2 * (c * s0)) by nia.
  assert (Hkcs' : 1 <= k1 * (c * s0)) by nia.
  assert (B0 : s0 <= max_int64).
  { apply Z.le_trans with (k1 * k2 * c * s0); [|exact C1]. apply le_mul_l; lia. }
  assert (B1 : s1 <= max_int64).
  { apply Z.le_trans with (k1 * k2 * s0 * s1); [|exact C2]. apply le_mul_l; lia. }
  assert (Bk1 : k1 <= max_int64).
  { apply Z.le_trans with (k1 * k2 * c * s0); [|exact C1].
    replace (k1 * k2 * c * s0) with (k2 * (c * s0) * k1) by ring. apply le_mul_l; lia. }
  assert (Bk2 : k2 <= max_int64).
  { apply Z.le_trans with (k1 * k2 * c * s0); [|exact C1].
    replace (k1 * k2 * c * s0) with (k1 * (c * s0) * k2) by ring. apply le_mul_l; lia. }
  destruct (conv2d_same_returns_dims X s0 k1 k2 c d0 h w (Some relu_fn) "conv1" g HX DX)
    as (n1 & ker1 & bia1 & g1 & E1 & S1 & V1 & O1); try lia; try assumption;
    [discriminate|].
  destruct (conv2d_same_returns_dims (Conv2D n1 X ker1 bia1 SAME (Some relu_fn))
              s1 k1 k2 s0 d0 h w (Some relu_fn) "conv2" g1 S1 DX)
    as (n2 & ker2 & bia2 & g2 & E2 & S2 & V2 & O2); try lia; try discriminate.
  { rewrite V1. apply not_in_extended_store; [discriminate | discriminate | assumption]. }
  { rewrite V1. apply not_in_extended_store; [discriminate | discriminate | assumption]. }
  exists g2. split; [|split; [|split]].
  - unfold convnet. rewrite HX.
    cbn [shape_getitem getitem nth_error value]. rewrite !bind_lift_return.
    rewrite (bind_return _ _ _ _ _ E1). cbv beta. rewrite bind_lift_return.
    rewrite (bind_return _ _ _ _ _ E2). cbv beta.
    destruct Hhw as [-> | ->].
    + reflexivity.
    + destruct h; reflexivity.
  - eexists. rewrite O2, O1, <- app_assoc. reflexivity.
  - rewrite O2, O1, !length_app. cbn [length]. lia.
  - intros x Hx. rewrite V2, V1.
    rewrite !elem_of_union, !elem_of_singleton in Hx.
    rewrite !elem_of_union, !elem_of_singleton. tauto.
Qed.

Lemma convnet_unknown_image_size_witness :
  exists g',
    convnet (Placeholder "images" float32 (Some [None; None; None; Some 1]))
      onehot_targets [10; 10] [3; 3] 10 "same" empty_graph = (Raise TypeError, g').
Proof.
  destruct (convnet_unknown_image_size
              (Placeholder "images" float32 (Some [None; None; None; Some 1]))
              onehot_targets 10 10 [] 3 3 10 1 None None None "same" empty_graph)
    as (g' & E & _);
    try reflexivity; try lia; try (unfold max_int64; lia); try apply not_elem_of_empty.
  - now left.
  - exists g'. exact E.
Defined.

(* ===================================================================== *)
(** ** Further properties: models in one graph *)
(* ===================================================================== *)

(** X7.  In a well-formed graph (one that only these calls have added
    nodes to), a call of [onelayer] that returns leaves the graph
    well-formed, removes no node, and every tensor of its tuple is a node
    the call has added under a name no earlier node has.  So a later call
    of [onelayer] in the same graph shares no tensor with it: the two
    models have their own weights and biases. *)
Theorem onelayer_makes_its_own_nodes (X Y : tensor) (layersize : Z) (g g1 : Graph)
    (r : onelayer_result) :
  graph_wf g ->
  onelayer X Y layersize g = (Return r, g1) ->
  graph_wf g1
  /\ grows g g1
  /\ Forall (new_in g g1) (onelayer_tensors r)
  /\ forall X' Y' layersize' r' g2,
       onelayer X' Y' layersize' g1 = (Return r', g2) ->
       forall t t', t ∈ onelayer_tensors r -> t' ∈ onelayer_tensors r' ->
                    tensor_name t <> tensor_name t'.
Proof.
  intros Hwf H.
  destruct (onelayer_new_nodes X Y layersize g g1 r Hwf H) as (Hwf1 & G1 & Hnew).
  split; [exact Hwf1|]. split; [exact G1|]. split; [exact Hnew|].
  intros X' Y' n' r' g2 H' t t' Ht Ht'.
  destruct (onelayer_new_nodes X' Y' n' g1 g2 r' Hwf1 H') as (_ & _ & Hnew').
  rewrite Forall_forall in Hnew, Hnew'.
  exact (new_in_apart g g1 g1 g2 t t' (grows_refl g1) (Hnew t Ht) (Hnew' t' Ht')).
Qed.

Lemma onelayer_makes_its_own_nodes_witness :
  graph_wf (snd (onelayer mnist_X mnist_Y 10 empty_graph)).
Proof.
  destruct (onelayer mnist_X mnist_Y 10 empty_graph) as [[r|e] g1] eqn:E.
  - exact (proj1 (onelayer_makes_its_own_nodes mnist_X mnist_Y 10 empty_graph g1 r
                    graph_wf_empty E)).
  - vm_compute in E. discriminate E.
Defined.

(** X8.  The same for [twolayer]: the eight tensors it returns are nodes
    it has added under new names, the graph stays well-formed, and a later
    call of [twolayer] in the same graph shares no tensor with it. *)
Theorem twolayer_makes_its_own_nodes (X Y : tensor) (hiddensize outputsize : Z)
    (g g1 : Graph) (r : twolayer_result) :
  graph_wf g ->
  twolayer X Y hiddensize outputsize g = (Return r, g1) ->
  graph_wf g1
  /\ grows g g1
  /\ Forall (new_in g g1) (twolayer_tensors r)
  /\ forall X' Y' hiddensize' outputsize' r' g2,
       twolayer X' Y' hiddensize' outputsize' g1 = (Return r', g2) ->
       forall t t', t ∈ twolayer_tensors r -> t' ∈ twolayer_tensors r' ->
                    tensor_name t <> tensor_name t'.
Proof.
  intros Hwf H.
  destruct (twolayer_new_nodes X Y hiddensize outputsize g g1 r Hwf H) as (Hwf1 & G1 & Hnew).
  split; [exact Hwf1|]. split; [exact G1|]. split; [exact Hnew|].
  intros X' Y' h' o' r' g2 H' t t' Ht Ht'.
  destruct (twolayer_new_nodes X' Y' h' o' g1 g2 r' Hwf1 H') as (_ & _ & Hnew').
  rewrite Forall_forall in Hnew, Hnew'.
  exact (new_in_apart g g1 g1 g2 t t' (grows_refl g1) (Hnew t Ht) (Hnew' t' Ht')).
Qed.

Lemma twolayer_makes_its_own_nodes_witness :
  graph_wf (snd (twolayer mnist_X mnist_Y 30 10 empty_graph)).
Proof.
  destruct (twolayer mnist_X mnist_Y 30 10 empty_graph) as [[r|e] g1] eqn:E.
  - exact (proj1 (twolayer_makes_its_own_nodes mnist_X mnist_Y 30 10 empty_graph g1 r
                    graph_wf_empty E)).
  - vm_compute in E. discriminate E.
Defined.

(** X9.  [convnet] too: the two layers and the six tensors of the linear
    head that it returns are nodes it has added under new names, and the
    graph stays well-formed; a linear or two-layer model built afterwards
    in the same graph shares no tensor with it. *)
Theorem convnet_makes_its_own_nodes (X Y : tensor) (convlayer_sizes filter_shape : list Z)
    (outputsize : Z) (padding : string) (g g1 : Graph) (r : convnet_result) :
  graph_wf g ->
  convnet X Y convlayer_sizes filter_shape outputsize padding g = (Return r, g1) ->
  graph_wf g1
  /\ grows g g1
  /\ Forall (new_in g g1) (convnet_tensors r)
  /\ (forall X' Y' layersize' r' g2,
        onelayer X' Y' layersize' g1 = (Return r', g2) ->
        forall t t', t ∈ convnet_tensors r -> t' ∈ onelayer_tensors r' ->
                     tensor_name t <> tensor_name t')
  /\ (forall X' Y' hiddensize' outputsize' r' g2,
        twolayer X' Y' hiddensize' outputsize' g1 = (Return r', g2) ->
        forall t t', t ∈ convnet_tensors r -> t' ∈ twolayer_tensors r' ->
                     tensor_name t <> tensor_name t').
Proof.
  intros Hwf H.
  destruct (convnet_new_nodes X Y convlayer_sizes filter_shape outputsize padding g g1 r
              Hwf H) as (Hwf1 & G1 & Hnew).
  split; [exact Hwf1|]. split; [exact G1|]. split; [exact Hnew|].
  rewrite Forall_forall in Hnew. split.
  - intros X' Y' n' r' g2 H' t t' Ht Ht'.
    destruct (onelayer_new_nodes X' Y' n' g1 g2 r' Hwf1 H') as (_ & _ & Hnew').
    rewrite Forall_forall in Hnew'.
    exact (new_in_apart g g1 g1 g2 t t' (grows_refl g1) (Hnew t Ht) (Hnew' t' Ht')).
  - intros X' Y' h' o' r' g2 H' t t' Ht Ht'.
    destruct (twolayer_new_nodes X' Y' h' o' g1 g2 r' Hwf1 H') as (_ & _ & Hnew').
    rewrite Forall_forall in Hnew'.
    exact (new_in_apart g g1 g1 g2 t t' (grows_refl g1) (Hnew t Ht) (Hnew' t' Ht')).
Qed.

Lemma convnet_makes_its_own_nodes_witness :
  graph_wf (snd (convnet image_batch onehot_targets [10; 10] [3; 3] 10 "same" empty_graph)).
Proof.
  destruct (convnet image_batch onehot_targets [10; 10] [3; 3] 10 "same" empty_graph)
    as [[r|e] g1] eqn:E.
  - exact (proj1 (convnet_makes_its_own_nodes image_batch onehot_targets [10; 10] [3; 3]
                    10 "same" empty_graph g1 r graph_wf_empty E)).
  - vm_compute in E. discriminate E.
Defined.

(* ===================================================================== *)
(** ** Further properties: what a session accepts *)
(* ===================================================================== *)

Lemma fits_rows (width : nat) (a : ndarray) :
  is_compatible_with (Some [None; Some (Z.of_nat width)]) (array_shape a)
  = has_rows_of width a.
Proof.
  unfold array_shape, has_rows_of, is_compatible_with.
  destruct (nd_shape a) as [|n [|w [|x rest]]]; try reflexivity.
  - cbn [map dims_compatible dim_compatible andb].
    rewrite andb_true_r.
    destruct (Nat.eqb_spec w width) as [->|Hne].
    + apply Z.eqb_refl.
    + apply Z.eqb_neq. lia.
  - cbn [map dims_compatible dim_compatible andb]. now rewrite andb_false_r.
Qed.

Lemma run_fetch_fed_placeholder (name : string) (width : nat) (a : ndarray)
    (sess : Session) :
  let P := Placeholder name float32 (Some [None; Some (Z.of_nat width)]) in
  Session.run [FetchTensor P] {[ name := (P, a) ]} sess
  = (if has_rows_of width a then Return [FetchedArray a] else Raise ValueError,
     {| variables := variables sess;
        run_calls := (run_calls sess ++ [([FetchTensor P], {[ name := (P, a) ]})])%list |}).
Proof.
  cbv zeta. unfold Session.run.
  set (P := Placeholder name float32 (Some [None; Some (Z.of_nat width)])).
  assert (Hfit : feed_fits {[ name := (P, a) ]} = has_rows_of width a).
  { rewrite <- fits_rows. unfold feed_fits.
    destruct (is_compatible_with _ _) eqn:E.
    - apply bool_decide_eq_true. apply map_Forall_singleton. exact E.
    - apply bool_decide_eq_false. intros H. apply map_Forall_singleton in H.
      cbn [fst snd get_shape P] in H. congruence. }
  rewrite Hfit. destruct (has_rows_of width a); [|reflexivity].
  cbn [fetch_values fetch_value eval P]. rewrite lookup_singleton_eq.
  reflexivity.
Qed.

(** X13.  In every graph the two placeholders are created, and a session
    that is fed an array for one of them and asked for it returns the array
    when it has rank two and rows of 784 (of 10) entries, with any number
    of rows, none included; for any other array the run raises ValueError.
    In both cases the variables of the session are as before and the call
    is logged. *)
Theorem placeholders_accept_exactly_their_rows (g : Graph) :
  exists nx ny gx gy,
    let X := Placeholder nx float32 (Some [None; Some 784]) in
    let Y := Placeholder ny float32 (Some [None; Some 10]) in
    input_placeholder g = (Return X, gx)
    /\ target_placeholder g = (Return Y, gy)
    /\ forall (a : ndarray) (sess : Session),
         Session.run [FetchTensor X] {[ nx := (X, a) ]} sess
         = (if has_rows_of 784 a then Return [FetchedArray a] else Raise ValueError,
            {| variables := variables sess;
               run_calls := (run_calls sess
                               ++ [([FetchTensor X], {[ nx := (X, a) ]})])%list |})
         /\ Session.run [FetchTensor Y] {[ ny := (Y, a) ]} sess
            = (if has_rows_of 10 a then Return [FetchedArray a] else Raise ValueError,
               {| variables := variables sess;
                  run_calls := (run_calls sess
                                  ++ [([FetchTensor Y], {[ ny := (Y, a) ]})])%list |}).
Proof.
  destruct (placeholder_returns float32 (Some [None; Some 784]) "image_input" g)
    as (nx & gx & EX & _).
  destruct (placeholder_returns float32 (Some [None; Some 10]) "image_target_onehot" g)
    as (ny & gy & EY & _).
  exists nx, ny, gx, gy. cbv zeta.
  split; [exact EX|]. split; [exact EY|].
  intros a sess. split.
  - exact (run_fetch_fed_placeholder nx 784 a sess).
  - exact (run_fetch_fed_placeholder ny 10 a sess).
Qed.

(** X14.  A batch of fewer than two arrays makes [train_step] raise
    IndexError before the session is used: no call of [run] is made and
    the session is as it was. *)
Theorem train_step_short_batch (batch : list ndarray) (X Y : tensor)
    (train_op loss_op summaries_op : fetch) (sess : Session) :
  (length batch < 2)%nat ->
  train_step batch X Y train_op loss_op summaries_op sess = (Raise IndexError, sess).
Proof.
  intros H. rewrite train_step_unfold.
  destruct batch as [|b0 [|b1 rest]]; [reflexivity | reflexivity |].
  cbn [length] in H. lia.
Qed.

Lemma train_step_short_batch_witness :
  train_step [blank_image] mnist_X mnist_Y (FetchOperation NoOp)
    (FetchTensor mnist_batch_loss) (FetchSummary "loss" mnist_batch_loss)
    (mnist_session [] [])
  = (Raise IndexError, mnist_session [] []).
Proof.
  apply (train_step_short_batch [blank_image]). cbn [length]. lia.
Defined.

Lemma feed_dict_misfit (X Y : tensor) (b0 b1 : ndarray) :
  tensor_name X <> tensor_name Y ->
  is_compatible_with (get_shape X) (array_shape b0) = false
  \/ is_compatible_with (get_shape Y) (array_shape b1) = false ->
  feed_fits (feed_dict X b0 Y b1) = false.
Proof.
  intros Hne H. unfold feed_fits. apply bool_decide_eq_false. intros Hall.
  destruct H as [H|H].
  - pose proof (Hall _ _ (feed_dict_lookup_X X b0 Y b1 Hne)) as C.
    cbn [fst snd] in C. congruence.
  - pose proof (Hall _ _ (feed_dict_lookup_Y X b0 Y b1)) as C.
    cbn [fst snd] in C. congruence.
Qed.

(** X15.  When the first array of the batch does not fit the static shape
    of [X], or the second does not fit that of [Y], [train_step] raises
    ValueError; the one call of [run] is logged, and no variable changes,
    whatever the update operation is. *)
Theorem train_step_refuses_misshapen_batch (batch : list ndarray) (X Y : tensor)
    (train_op loss_op summaries_op : fetch) (b0 b1 : ndarray) (sess : Session) :
  nth_error batch 0 = Some b0 ->
  nth_error batch 1 = Some b1 ->
  tensor_name X <> tensor_name Y ->
  is_compatible_with (get_shape X) (array_shape b0) = false
  \/ is_compatible_with (get_shape Y) (array_shape b1) = false ->
  train_step batch X Y train_op loss_op summaries_op sess
  = (Raise ValueError,
     {| variables := variables sess;
        run_calls := (run_calls sess
                        ++ [([train_op; loss_op; summaries_op],
                             feed_dict X b0 Y b1)])%list |}).
Proof.
  intros H0 H1 Hne Hmis. rewrite train_step_unfold, H0, H1. cbv zeta.
  now rewrite (feed_dict_misfit X Y b0 b1 Hne Hmis).
Qed.

Lemma train_step_refuses_misshapen_batch_witness :
  train_step [first_class; first_class] mnist_X mnist_Y
    (FetchOperation (Assign "biases" mnist_batch_loss))
    (FetchTensor mnist_batch_loss) (FetchSummary "loss" mnist_batch_loss)
    (mnist_session [] [])
  = (Raise ValueError,
     {| variables := variables (mnist_session [] []);
        run_calls := (run_calls (mnist_session [] [])
                        ++ [([FetchOperation (Assign "biases" mnist_batch_loss);
                              FetchTensor mnist_batch_loss;
                              FetchSummary "loss" mnist_batch_loss],
                             feed_dict mnist_X first_class mnist_Y first_class)])%list |}).
Proof.
  apply (train_step_refuses_misshapen_batch [first_class; first_class] mnist_X mnist_Y).
  - reflexivity.
  - reflexivity.
  - discriminate.
  - left. reflexivity.
Defined.
